(** * TgFunnel: the message scheduling and delivery engine

    A shallow embedding of the repository's scheduling core
    (src/config.py, src/data/models/models.py, src/app/schemas/*.py,
    src/data/methods/*.py and src/app/main.py) and the properties of it
    that the specification states.

    Conventions of the embedding:
    - a [datetime] is an integer count of microseconds, a [timedelta]
      likewise;
    - a database table is the list of its rows in storage order (the order
      of insertion); a query without ORDER BY scans the table in that
      order, [ORDER BY] is a stable sort of the scanned rows;
    - a coroutine is run alone: every [await] is a monadic bind over the
      state of the world (the two tables, the serial of [sent_messages_id],
      the clock, the transport, the log).  The statements are about one
      call of a coroutine, or about calls made one after the other; the
      interleavings of the handlers with the dispatch loop at their awaits
      are not modelled;
    - a Python exception is the [Raise] outcome of the monad, [try/except]
      is [try_except] with the set of classes the clause catches. *)

From Stdlib Require Import ZArith List String Bool Lia.
Import ListNotations.

Open Scope string_scope.
Open Scope list_scope.
Open Scope Z_scope.

(** ** Time *)

Definition datetime := Z.
Definition timedelta := Z.

(** [timedelta(seconds=n)] *)
Definition timedelta_seconds (seconds : Z) : timedelta := seconds * 1000000.

(** ** src/config.py *)

Module config.

Record message := mk_message {
  index : Z;
  delay : timedelta;
  text : string
}.

Definition TRIGGER_WORDS : list string := ["прекрасно"; "ожидать"].

Definition MESSAGES : list message :=
  [ mk_message 1 (timedelta_seconds 6) "Текст1";
    mk_message 2 (timedelta_seconds 8) "Текст2";
    mk_message 3 (timedelta_seconds 12) "Текст3" ].

End config.

(** ** app/schemas/status.py *)

Module Status.

(** Modelled from the spec: the module app/schemas/status.py (the
    enumeration [Status], used as [Status.alive.value],
    [Status.dead.value] and [Status.finished.value]) is not among the
    sources.  The specification gives a contact's status as one of
    alive, dead, finished, and the query of [get_all_alive] compares the
    column with the literal ["alive"]. *)
Definition alive : string := "alive".
Definition dead : string := "dead".
Definition finished : string := "finished".

End Status.

(** ** src/data/models/models.py *)

Module User.

Record t := mk {
  user_id : Z;
  created_at : datetime;
  status : string;
  status_updated_at : datetime
}.

Definition set_user_id (v : Z) (u : t) : t :=
  mk v (created_at u) (status u) (status_updated_at u).
Definition set_created_at (v : datetime) (u : t) : t :=
  mk (user_id u) v (status u) (status_updated_at u).
Definition set_status (v : string) (u : t) : t :=
  mk (user_id u) (created_at u) v (status_updated_at u).
Definition set_status_updated_at (v : datetime) (u : t) : t :=
  mk (user_id u) (created_at u) (status u) v.

Definition eqb (u v : t) : bool :=
  (user_id u =? user_id v) && (created_at u =? created_at v)
  && String.eqb (status u) (status v)
  && (status_updated_at u =? status_updated_at v).

End User.

Module SentMessage.

Record t := mk {
  sent_messages_id : Z;
  index : Z;
  user_id : Z;
  message_text : string;
  sent_at : datetime;
  is_available_sent : bool;
  is_sent : bool
}.

(** The object [SentMessage(user_id=..., message_text=..., index=...,
    sent_at=..., is_available_sent=..., is_sent=...)] before it is
    flushed: it has no primary key yet, the INSERT draws it from the
    serial. *)
Record transient := mk_transient {
  t_user_id : Z;
  t_message_text : string;
  t_index : Z;
  t_sent_at : datetime;
  t_is_available_sent : bool;
  t_is_sent : bool
}.

Definition persist (key : Z) (m : transient) : t :=
  mk key (t_index m) (t_user_id m) (t_message_text m) (t_sent_at m)
     (t_is_available_sent m) (t_is_sent m).

Definition set_sent_at (v : datetime) (m : t) : t :=
  mk (sent_messages_id m) (index m) (user_id m) (message_text m) v
     (is_available_sent m) (is_sent m).
Definition set_is_available_sent (v : bool) (m : t) : t :=
  mk (sent_messages_id m) (index m) (user_id m) (message_text m)
     (sent_at m) v (is_sent m).
Definition set_is_sent (v : bool) (m : t) : t :=
  mk (sent_messages_id m) (index m) (user_id m) (message_text m)
     (sent_at m) (is_available_sent m) v.

End SentMessage.

(** ** src/app/logger.py: the log sink, one record per call of the logger.
    A record keeps the level, the fixed part of the formatted text and the
    integers formatted into it. *)

Inductive Level := DEBUG | INFO | ERROR.

Record LogRecord := mk_log {
  log_level : Level;
  log_text : string;
  log_args : list Z
}.

(** ** The state the coroutines run in *)

Record World := mk_world {
  users : list User.t;
  sent_messages : list SentMessage.t;
  sent_messages_id_seq : Z;
  utc : datetime;
  import_time : datetime;
  transport : Z -> option string -> bool;
  outbox : list (Z * option string);
  log : list LogRecord
}.

Definition set_users (v : list User.t) (w : World) : World :=
  mk_world v (sent_messages w) (sent_messages_id_seq w) (utc w)
           (import_time w) (transport w) (outbox w) (log w).
Definition set_sent_messages (v : list SentMessage.t) (w : World) : World :=
  mk_world (users w) v (sent_messages_id_seq w) (utc w)
           (import_time w) (transport w) (outbox w) (log w).
Definition set_sent_messages_id_seq (v : Z) (w : World) : World :=
  mk_world (users w) (sent_messages w) v (utc w)
           (import_time w) (transport w) (outbox w) (log w).
Definition set_utc (v : datetime) (w : World) : World :=
  mk_world (users w) (sent_messages w) (sent_messages_id_seq w) v
           (import_time w) (transport w) (outbox w) (log w).
Definition set_transport (v : Z -> option string -> bool) (w : World) : World :=
  mk_world (users w) (sent_messages w) (sent_messages_id_seq w) (utc w)
           (import_time w) v (outbox w) (log w).
Definition set_outbox (v : list (Z * option string)) (w : World) : World :=
  mk_world (users w) (sent_messages w) (sent_messages_id_seq w) (utc w)
           (import_time w) (transport w) v (log w).
Definition set_log (v : list LogRecord) (w : World) : World :=
  mk_world (users w) (sent_messages w) (sent_messages_id_seq w) (utc w)
           (import_time w) (transport w) (outbox w) v.

(** ** Exceptions and the monad of the coroutines *)

Inductive exn :=
| ValidationError   (* pydantic: a required field is missing *)
| IntegrityError    (* sqlalchemy.exc.IntegrityError, a SQLAlchemyError *)
| TransportError    (* whatever app.send_message raises, e.g. UserDeactivated *)
| IndexError.

Inductive result (A : Type) :=
| Ok (a : A)
| Raise (e : exn).
Arguments Ok {A} a.
Arguments Raise {A} e.

Definition M (A : Type) : Type := World -> result A * World.

Definition ret {A} (a : A) : M A := fun w => (Ok a, w).

Definition bind {A B} (m : M A) (k : A -> M B) : M B :=
  fun w =>
    match m w with
    | (Ok a, w') => k a w'
    | (Raise e, w') => (Raise e, w')
    end.

Definition raise {A} (e : exn) : M A := fun w => (Raise e, w).

Notation "x <- m ;; k" := (bind m (fun x => k))
  (at level 61, m at next level, right associativity).
Notation "m ;; k" := (bind m (fun _ => k))
  (at level 61, right associativity).

(** [try: body except <classes> as e: handler e] *)
Definition try_except {A} (catches : exn -> bool) (body : M A)
    (handler : exn -> M A) : M A :=
  fun w =>
    match body w with
    | (Ok a, w') => (Ok a, w')
    | (Raise e, w') => if catches e then handler e w' else (Raise e, w')
    end.

(** [except Exception] *)
Definition Exception (e : exn) : bool := true.

(** [except SQLAlchemyError] *)
Definition SQLAlchemyError (e : exn) : bool :=
  match e with IntegrityError => true | _ => false end.

(** [for x in xs: body x] *)
Fixpoint for_each {A} (xs : list A) (body : A -> M unit) : M unit :=
  match xs with
  | [] => ret tt
  | x :: xs' => body x ;; for_each xs' body
  end.

Definition state_of {A} (r : result A * World) : World := snd r.
Definition value_of {A} (r : result A * World) : result A := fst r.

(** [datetime.utcnow()] *)
Definition utcnow : M datetime := fun w => (Ok (utc w), w).

(** [await asyncio.sleep(seconds)] *)
Definition asyncio_sleep (seconds : Z) : M unit :=
  fun w => (Ok tt, set_utc (utc w + timedelta_seconds seconds) w).

Module logger.
Definition emit (l : Level) (text : string) (args : list Z) : M unit :=
  fun w => (Ok tt, set_log (log w ++ [mk_log l text args]) w).
Definition debug := emit DEBUG.
Definition info := emit INFO.
Definition error := emit ERROR.
End logger.

(** ** Rows of a table *)

(** The row that [result.scalars().first()] returns is [find p] of the
    table; changing that object and committing writes it back in place. *)
Fixpoint update_first {A} (p : A -> bool) (f : A -> A) (l : list A) : list A :=
  match l with
  | [] => []
  | x :: l' => if p x then f x :: l' else x :: update_first p f l'
  end.

(** [ORDER BY key]: a stable insertion sort. *)
Fixpoint insert_by {A} (key : A -> Z) (x : A) (l : list A) : list A :=
  match l with
  | [] => [x]
  | y :: l' => if key x <=? key y then x :: l else y :: insert_by key x l'
  end.

Definition order_by {A} (key : A -> Z) (l : list A) : list A :=
  fold_right (insert_by key) [] l.

(** [needle in haystack] on [str] *)
Fixpoint str_in (needle haystack : string) : bool :=
  if String.prefix needle haystack then true
  else match haystack with
       | EmptyString => false
       | String _ rest => str_in needle rest
       end.

(** ** src/app/schemas/users.py *)

Module UserSchema.

Inductive field := f_user_id | f_created_at | f_status | f_status_updated_at.

Definition field_eqb (a b : field) : bool :=
  match a, b with
  | f_user_id, f_user_id => true
  | f_created_at, f_created_at => true
  | f_status, f_status => true
  | f_status_updated_at, f_status_updated_at => true
  | _, _ => false
  end.

Inductive value :=
| Int (z : Z)
| Str (s : string)
| Datetime (d : option datetime).

(** [fields_set] lists the optional fields that were given explicitly;
    [user_id] is required, hence always set. *)
Record t := mk {
  user_id : Z;
  created_at : option datetime;
  status : string;
  status_updated_at : option datetime;
  fields_set : list field
}.

(** [UserSchema(user_id=...)] and [UserSchema(user_id=..., status=...)].
    The defaults of the two dates are [Field(default=datetime.utcnow())]:
    the clock read once, when the module is imported. *)
Definition new (user_id : Z) (status : option string) : M t :=
  fun w =>
    (Ok (mk user_id (Some (import_time w))
            (match status with Some s => s | None => "alive" end)
            (Some (import_time w))
            (match status with Some _ => [f_status] | None => [] end)),
     w).

Definition from_orm (u : User.t) : t :=
  mk (User.user_id u) (Some (User.created_at u)) (User.status u)
     (Some (User.status_updated_at u))
     [f_created_at; f_status; f_status_updated_at].

Definition model_dump (s : t) : list (field * value) :=
  [ (f_user_id, Int (user_id s));
    (f_created_at, Datetime (created_at s));
    (f_status, Str (status s));
    (f_status_updated_at, Datetime (status_updated_at s)) ].

(** [.dict(exclude_unset=True)] *)
Definition dict_exclude_unset (s : t) : list (field * value) :=
  filter (fun kv => field_eqb (fst kv) f_user_id
                    || existsb (field_eqb (fst kv)) (fields_set s))
         (model_dump s).

End UserSchema.

(** [setattr(user, key, value)] on a [User] object.  A date that is [None]
    can only be given for the two date columns: an INSERT then takes the
    column's default, and [update_user] never sets these two keys. *)
Definition setattr (u : User.t) (kv : UserSchema.field * UserSchema.value)
    : User.t :=
  match kv with
  | (UserSchema.f_user_id, UserSchema.Int z) => User.set_user_id z u
  | (UserSchema.f_created_at, UserSchema.Datetime (Some d)) =>
      User.set_created_at d u
  | (UserSchema.f_status, UserSchema.Str s) => User.set_status s u
  | (UserSchema.f_status_updated_at, UserSchema.Datetime (Some d)) =>
      User.set_status_updated_at d u
  | _ => u
  end.

(** ** src/app/schemas/sent_messages.py *)

Module SentMessageSchema.

Record t := mk {
  sent_messages_id : Z;
  index : Z;
  user_id : Z;
  message_text : option string;
  sent_at : option datetime;
  is_available_sent : option bool;
  is_sent : option bool
}.

(** The keyword arguments of a constructor call: [None] for a keyword
    that is not given. *)
Record kwargs := mk_kwargs {
  kw_sent_messages_id : option Z;
  kw_index : option Z;
  kw_user_id : option Z;
  kw_message_text : option (option string);
  kw_sent_at : option (option datetime);
  kw_is_available_sent : option (option bool);
  kw_is_sent : option (option bool)
}.

(** A constructor call of [SentMessageSchema].  Only [sent_at] has a default
    ([default_factory=datetime.utcnow]); every other field is declared
    without one, so pydantic (version 2, whose [model_dump] the
    repository calls) requires it and raises [ValidationError] when it is
    missing.  [sent_messages_id: int] is required in every version of
    pydantic. *)
Definition new (k : kwargs) : M t :=
  match kw_sent_messages_id k, kw_index k, kw_user_id k,
        kw_message_text k, kw_is_available_sent k, kw_is_sent k with
  | Some id, Some i, Some u, Some txt, Some av, Some s =>
      match kw_sent_at k with
      | Some d => ret (mk id i u txt d av s)
      | None => now <- utcnow ;; ret (mk id i u txt (Some now) av s)
      end
  | _, _, _, _, _, _ => raise ValidationError
  end.

Definition from_orm (m : SentMessage.t) : t :=
  mk (SentMessage.sent_messages_id m) (SentMessage.index m)
     (SentMessage.user_id m) (Some (SentMessage.message_text m))
     (Some (SentMessage.sent_at m)) (Some (SentMessage.is_available_sent m))
     (Some (SentMessage.is_sent m)).

End SentMessageSchema.

(** ** src/data/methods/users.py *)

Module UserRepository.

(** [select(User)], [.scalars().all()] *)
Definition get_all : M (list UserSchema.t) :=
  try_except SQLAlchemyError
    (fun w => (Ok (map UserSchema.from_orm (users w)), w))
    (fun e =>
       logger.error "An error occurred while fetching all users" [] ;;
       ret []).

(** [select(User).where(User.status == "alive")], [.scalars().all()] *)
Definition get_all_alive : M (list UserSchema.t) :=
  try_except SQLAlchemyError
    (fun w =>
       let users := filter (fun u => String.eqb (User.status u) "alive")
                           (users w) in
       (Ok (map UserSchema.from_orm users), w))
    (fun e =>
       logger.error "An error occurred while fetching all alive users" [] ;;
       ret []).

(** [session.add(new_user); session.commit()]: the INSERT fails on a
    primary key that is already in the table. *)
Definition insert_user (new_user : User.t) : M unit :=
  fun w =>
    if existsb (fun u => User.user_id u =? User.user_id new_user) (users w)
    then (Raise IntegrityError, w)
    else (Ok tt, set_users (users w ++ [new_user]) w).

Definition add_user (user_data : UserSchema.t) : M (option UserSchema.t) :=
  try_except SQLAlchemyError
    (now <- utcnow ;;
     let new_user :=
       fold_left setattr (UserSchema.dict_exclude_unset user_data)
                 (User.mk 0 now "alive" now) in
     insert_user new_user ;;
     ret (Some (UserSchema.from_orm new_user)))
    (fun e =>
       logger.error "An error occurred while adding a new user" [] ;;
       ret None).

Definition get_by_user_id (user_id : Z) : M (option UserSchema.t) :=
  try_except SQLAlchemyError
    (fun w =>
       match find (fun u => User.user_id u =? user_id) (users w) with
       | Some user => (Ok (Some (UserSchema.from_orm user)), w)
       | None => (Ok None, w)
       end)
    (fun e =>
       logger.error "An error occurred while fetching user by user_id" [] ;;
       ret None).

(** The key test of the loop of [update_user]:
    [hasattr(user_to_update, key) and key not in ['created_at',
    "status_updated_at"]]; every key of the schema is a column of
    [User]. *)
Definition updatable (key : UserSchema.field) : bool :=
  match key with
  | UserSchema.f_created_at | UserSchema.f_status_updated_at => false
  | _ => true
  end.

(** What [session.commit()] flushes for a loaded [User] whose attributes
    were set: the unit of work compares every attribute with the value
    that was loaded and emits an UPDATE only if one of them differs;
    [status_updated_at] has [onupdate=datetime.utcnow], which the UPDATE
    applies unless the column itself is among the changed ones. *)
Definition flush (now : datetime) (loaded current : User.t) : User.t :=
  if User.eqb loaded current then current
  else if User.status_updated_at loaded =? User.status_updated_at current
       then User.set_status_updated_at now current
       else current.

Definition update_user (update_data : UserSchema.t)
    : M (option UserSchema.t) :=
  try_except SQLAlchemyError
    (fun w =>
       let is_it := fun u => User.user_id u =? UserSchema.user_id update_data in
       match find is_it (users w) with
       | Some user_to_update =>
           let changed :=
             fold_left
               (fun u kv => if updatable (fst kv) then setattr u kv else u)
               (UserSchema.model_dump update_data) user_to_update in
           let stored := flush (utc w) user_to_update changed in
           (Ok (Some (UserSchema.from_orm stored)),
            set_users (update_first is_it (fun _ => stored) (users w)) w)
       | None => (Ok None, w)
       end)
    (fun e =>
       logger.error "An error occurred while updating user" [] ;;
       ret None).

End UserRepository.

(** ** src/data/methods/sent_messages.py *)

Module SentMessageRepository.

(** [session.add(message_data); session.commit()]: the INSERT draws the
    primary key from the serial and fails when [user_id] is not the key
    of a row of [users] (the foreign key of the column). *)
Definition add_message (message_data : SentMessage.transient) : M bool :=
  try_except SQLAlchemyError
    (fun w =>
       let key := sent_messages_id_seq w in
       let w' := set_sent_messages_id_seq (key + 1) w in
       if existsb (fun u => User.user_id u =? SentMessage.t_user_id message_data)
                  (users w)
       then (Ok true,
             set_sent_messages
               (sent_messages w ++ [SentMessage.persist key message_data]) w')
       else (Raise IntegrityError, w'))
    (fun e =>
       logger.error "An error occurred while adding a new message" [] ;;
       ret false).

(** The WHERE clause [SentMessage.user_id == user_id, SentMessage.index
    == index]. *)
Definition by_user_and_index (user_id index : Z) (m : SentMessage.t) : bool :=
  (SentMessage.user_id m =? user_id) && (SentMessage.index m =? index).

Definition update_status (user_id index : Z)
    (is_sent is_available_sent : bool) : M bool :=
  try_except SQLAlchemyError
    (fun w =>
       match find (by_user_and_index user_id index) (sent_messages w) with
       | Some message =>
           let write := fun m =>
             SentMessage.set_is_available_sent is_available_sent
               (SentMessage.set_is_sent is_sent m) in
           (logger.info "Message status updated for user_id, index"
                        [user_id; index] ;;
            ret true)
             (set_sent_messages
                (update_first (by_user_and_index user_id index) write
                              (sent_messages w)) w)
       | None => (Ok false, w)
       end)
    (fun e =>
       logger.error "An error occurred while updating message status" [] ;;
       ret false).

(** The WHERE clause of [fetch_pending]. *)
Definition pending (user_id : Z) (now : datetime) (m : SentMessage.t) : bool :=
  (SentMessage.user_id m =? user_id)
  && (SentMessage.sent_at m <=? now)
  && Bool.eqb (SentMessage.is_available_sent m) true
  && Bool.eqb (SentMessage.is_sent m) false.

Definition fetch_pending (user_id : Z) : M (option SentMessageSchema.t) :=
  try_except SQLAlchemyError
    (now <- utcnow ;;
     fun w =>
       let result :=
         firstn 1 (order_by SentMessage.sent_at
                            (filter (pending user_id now) (sent_messages w))) in
       match hd_error result with
       | Some message => (Ok (Some (SentMessageSchema.from_orm message)), w)
       | None => (Ok None, w)
       end)
    (fun e =>
       logger.error
         "An error occurred while fetching messages to send for user"
         [user_id] ;;
       ret None).

Definition mark_unavailable (user_id index : Z) : M bool :=
  try_except SQLAlchemyError
    (fun w =>
       match find (by_user_and_index user_id index) (sent_messages w) with
       | Some message =>
           (logger.debug "Message marked as unavailable for user_id, index"
                         [user_id; index] ;;
            ret true)
             (set_sent_messages
                (update_first (by_user_and_index user_id index)
                              (SentMessage.set_is_available_sent false)
                              (sent_messages w)) w)
       | None => (Ok false, w)
       end)
    (fun e =>
       logger.error "An error occurred while marking message as unavailable" [] ;;
       ret false).

(** [third_message.sent_at = sent_message_data.sent_at]: the column is
    not nullable, a [None] makes the UPDATE fail. *)
Definition update_third_message_time (sent_message_data : SentMessageSchema.t)
    : M bool :=
  try_except SQLAlchemyError
    (fun w =>
       let third := by_user_and_index
                      (SentMessageSchema.user_id sent_message_data) 3 in
       match find third (sent_messages w) with
       | Some third_message =>
           match SentMessageSchema.sent_at sent_message_data with
           | Some sent_at =>
               (logger.debug "Updated sent_at for the third message for user_id"
                             [SentMessageSchema.user_id sent_message_data] ;;
                ret true)
                 (set_sent_messages
                    (update_first third (SentMessage.set_sent_at sent_at)
                                  (sent_messages w)) w)
           | None => (Raise IntegrityError, w)
           end
       | None => (Ok false, w)
       end)
    (fun e =>
       logger.error "An error occurred while updating the third message time" [] ;;
       ret false).

End SentMessageRepository.

(** ** src/app/main.py *)

(** [app.send_message(user_id, text)] of the transport client: it delivers
    or raises, as the transport decides. *)
Definition app_send_message (user_id : Z) (text : option string) : M unit :=
  fun w =>
    if transport w user_id text
    then (Ok tt, set_outbox (outbox w ++ [(user_id, text)]) w)
    else (Raise TransportError, w).

Definition send_message (user_id : Z) (text : option string) : M unit :=
  try_except Exception
    (app_send_message user_id text ;;
     logger.info "Message sent to user" [user_id])
    (fun e =>
       schema <- UserSchema.new user_id (Some Status.dead) ;;
       UserRepository.update_user schema ;;
       logger.error "An error occurred while sending a message to user" [user_id]).

(** The body of [for user in users] in [send_messages_loop]. *)
Definition send_pending_message (user : UserSchema.t) : M unit :=
  let user_id := UserSchema.user_id user in
  message_to_send <- SentMessageRepository.fetch_pending user_id ;;
  logger.debug "Found messages to send for user" [user_id] ;;
  match message_to_send with
  | Some message_to_send =>
      send_message user_id (SentMessageSchema.message_text message_to_send) ;;
      SentMessageRepository.update_status
        user_id (SentMessageSchema.index message_to_send) true true ;;
      logger.info "Sent message index to user"
                  [SentMessageSchema.index message_to_send; user_id] ;;
      if SentMessageSchema.index message_to_send =? 3 then
        schema <- UserSchema.new user_id (Some Status.finished) ;;
        UserRepository.update_user schema ;;
        logger.info "User finished" [user_id]
      else ret tt
  | None =>
      logger.debug "No messages to send for user at this time" [user_id]
  end.

(** One round of the [while True] of [send_messages_loop], up to the
    [asyncio.sleep]. *)
Definition send_messages_loop_body : M unit :=
  users <- UserRepository.get_all_alive ;;
  (match users with
   | [] => ret tt
   | _ :: _ => logger.debug "Processing alive users" [Z.of_nat (List.length users)]
   end) ;;
  for_each users send_pending_message.

(** [send_messages_loop] never returns; [rounds] is the number of rounds of
    it that are observed. *)
Fixpoint send_messages_loop (rounds : nat) : M unit :=
  match rounds with
  | O => ret tt
  | S n => send_messages_loop_body ;; asyncio_sleep 10 ;; send_messages_loop n
  end.

Definition add_initial_messages_for_user (user_id : Z) : M unit :=
  now <- utcnow ;;
  try_except Exception
    (for_each config.MESSAGES (fun message =>
       let index := config.index message in
       let delay := config.delay message in
       let text := config.text message in
       let sent_message :=
         SentMessage.mk_transient user_id text index (now + delay) true false in
       SentMessageRepository.add_message sent_message ;;
       logger.debug "Initial message added for user" [index; user_id]))
    (fun e =>
       logger.error "An error occurred while adding initial messages for user"
                    [user_id]).

Definition get_or_add_user_in_db (user_id : Z) : M (option UserSchema.t) :=
  try_except Exception
    (user <- UserRepository.get_by_user_id user_id ;;
     match user with
     | Some _ => ret user
     | None =>
         schema <- UserSchema.new user_id None ;;
         user <- UserRepository.add_user schema ;;
         add_initial_messages_for_user user_id ;;
         logger.debug "New user added and initialized" [user_id] ;;
         ret user
     end)
    (fun e =>
       logger.error "An error occurred while processing user" [user_id] ;;
       ret None).

(** [MESSAGES[i]] *)
Definition subscript {A} (l : list A) (i : nat) : M A :=
  match nth_error l i with
  | Some x => ret x
  | None => raise IndexError
  end.

Definition handle_trigger_for_user (user_id : Z) (text : string) : M unit :=
  if existsb (fun trigger_word => str_in trigger_word text) config.TRIGGER_WORDS
  then
    try_except Exception
      (SentMessageRepository.mark_unavailable user_id 2 ;;
       now <- utcnow ;;
       third <- subscript config.MESSAGES 2 ;;
       let event_time := now + config.delay third in
       schema <- SentMessageSchema.new
                   (SentMessageSchema.mk_kwargs
                      None (Some 2) (Some user_id) None
                      (Some (Some event_time)) None None) ;;
       SentMessageRepository.update_third_message_time schema ;;
       logger.info "Trigger processed for user" [user_id])
      (fun e => logger.error "Error processing trigger for user" [user_id])
  else ret tt.

(** The fields of a pyrogram [Message] that the handler reads. *)
Record Message := mk_Message {
  from_user_id : Z;
  chat_id : Z;
  text : string;
  outgoing : bool
}.

Definition message_handler (message : Message) : M unit :=
  let user_id := from_user_id message in
  logger.debug "User sent a message" [user_id] ;;
  if negb (outgoing message) then
    get_or_add_user_in_db user_id ;; ret tt
  else
    user <- UserRepository.get_by_user_id (chat_id message) ;;
    logger.debug "User found in the database" [] ;;
    match user with
    | Some user =>
        if String.eqb (UserSchema.status user) Status.alive then
          logger.debug "User is alive" [user_id] ;;
          handle_trigger_for_user (UserSchema.user_id user) (text message)
        else ret tt
    | None => ret tt
    end.

(** ** Predicates of the statements *)

(** A row is due for a contact at [now]: it is the contact's, available,
    not sent, and its time has come. *)
Definition is_due (user_id : Z) (now : datetime) (m : SentMessage.t) : Prop :=
  SentMessage.user_id m = user_id
  /\ SentMessage.is_available_sent m = true
  /\ SentMessage.is_sent m = false
  /\ SentMessage.sent_at m <= now.

(** The foreign key of [sent_messages.user_id]: every row belongs to a
    row of [users]. *)
Definition foreign_key_holds (w : World) : Prop :=
  forall m, In m (sent_messages w) ->
            exists u, In u (users w) /\ User.user_id u = SentMessage.user_id m.

(** No row of [users] has the key [user_id]. *)
Definition unknown_user (user_id : Z) (w : World) : Prop :=
  forall u, In u (users w) -> User.user_id u <> user_id.

(** The delay that [config.MESSAGES] gives the message of an index. *)
Definition delay_of (index : Z) : timedelta :=
  match find (fun m => config.index m =? index) config.MESSAGES with
  | Some m => config.delay m
  | None => 0
  end.

(** The three rows that [add_initial_messages_for_user] stores at [now],
    the first with the primary key [key]. *)
Definition seeded (user_id : Z) (now : datetime) (key : Z) : list SentMessage.t :=
  [ SentMessage.mk key 1 user_id "Текст1" (now + timedelta_seconds 6) true false;
    SentMessage.mk (key + 1) 2 user_id "Текст2" (now + timedelta_seconds 8) true false;
    SentMessage.mk (key + 2) 3 user_id "Текст3" (now + timedelta_seconds 12) true false ].

(** ** What a run may change *)

(** A coroutine that returns, whatever the state it starts in. *)
Definition never_raises {A} (m : M A) : Prop :=
  forall w, exists a, value_of (m w) = Ok a.

(** A coroutine whose final state is related to its initial state by [R],
    whether it returns or raises. *)
Definition steady (R : World -> World -> Prop) {A} (m : M A) : Prop :=
  forall w, R w (state_of (m w)).

(** The keys of the rows that [get_all_alive] lists. *)
Definition alive_ids (w : World) : list Z :=
  map User.user_id
      (filter (fun u => String.eqb (User.status u) "alive") (users w)).

(** What the dispatch loop may do to a row of [users] when it serves the
    contacts whose key satisfies [P]: nothing, or, for such a contact, set
    its status to dead or finished (and the time of that). *)
Definition user_step (P : Z -> Prop) (u u' : User.t) : Prop :=
  u' = u
  \/ (P (User.user_id u)
      /\ User.user_id u' = User.user_id u
      /\ User.created_at u' = User.created_at u
      /\ (User.status u' = Status.dead \/ User.status u' = Status.finished)).

(** ... and to a row of [sent_messages]: nothing, or, for such a contact,
    set both of its flags. *)
Definition message_step (P : Z -> Prop) (m m' : SentMessage.t) : Prop :=
  m' = m
  \/ (P (SentMessage.user_id m)
      /\ m' = SentMessage.set_is_available_sent true
                (SentMessage.set_is_sent true m)).

Definition dispatched (P : Z -> Prop) (w w' : World) : Prop :=
  Forall2 (user_step P) (users w) (users w')
  /\ Forall2 (message_step P) (sent_messages w) (sent_messages w')
  /\ (exists sent, outbox w' = outbox w ++ sent
                   /\ Forall (fun x => P (fst x)) sent)
  /\ sent_messages_id_seq w' = sent_messages_id_seq w
  /\ transport w' = transport w
  /\ import_time w' = import_time w.

Definition same_clock (w w' : World) : Prop := utc w' = utc w.

(** What [message_handler] may do to a row of [sent_messages]: nothing, or
    make it unavailable. *)
Definition message_kept (m m' : SentMessage.t) : Prop :=
  m' = m \/ m' = SentMessage.set_is_available_sent false m.

(** ... and to the store: append rows to either table and make rows of
    [sent_messages] unavailable. *)
Definition handled (w w' : World) : Prop :=
  (exists new, users w' = users w ++ new)
  /\ (exists rows new, sent_messages w' = rows ++ new
                       /\ Forall2 message_kept (sent_messages w) rows)
  /\ outbox w' = outbox w
  /\ utc w' = utc w.

(** No row of [users] with the key [user_id] is alive. *)
Definition not_alive (user_id : Z) (w : World) : Prop :=
  forall u, In u (users w) -> User.user_id u = user_id ->
            User.status u <> Status.alive.

(** A text has a trigger word: one of [config.TRIGGER_WORDS] occurs in it
    as a substring. *)
Definition has_trigger_word (text : string) : Prop :=
  exists word before after,
    In word config.TRIGGER_WORDS
    /\ text = String.append before (String.append word after).




(** The times of a contact's rows follow their indexes: of two rows of
    the contact, the one of lower index is for an earlier time. *)
Definition times_follow_index (user_id : Z) (rows : list SentMessage.t) : Prop :=
  forall a b, In a rows -> In b rows ->
    SentMessage.user_id a = user_id -> SentMessage.user_id b = user_id ->
    SentMessage.index a < SentMessage.index b ->
    SentMessage.sent_at a < SentMessage.sent_at b.

(** ** Runs on concrete inputs *)

(** An empty store at time 0, with a transport that delivers. *)
Definition start : World :=
  mk_world [] [] 1 0 0 (fun _ _ => true) [] [].

Definition at_second (seconds : Z) (w : World) : World :=
  set_utc (timedelta_seconds seconds) w.

(** The transport raises on every delivery. *)
Definition unreachable (w : World) : World :=
  set_transport (fun _ _ => false) w.

Definition incoming (user_id : Z) (text : string) : Message :=
  mk_Message user_id user_id text false.

(** A message of the account itself in the chat of [user_id]. *)
Definition outgoing_to (user_id : Z) (text : string) : Message :=
  mk_Message 777 user_id text true.

(** Contact 1 writes at time 0 and is onboarded. *)
Definition onboarded : World :=
  state_of (message_handler (incoming 1 "hello") start).

(** ... its first message is delivered at 6 s, its second at 8 s. *)
Definition first_sent : World :=
  state_of (send_messages_loop_body (at_second 6 onboarded)).

Definition second_sent : World :=
  state_of (send_messages_loop_body (at_second 8 first_sent)).

(** A table in which a row of index 3 is stored before a row of index 1
    of the same contact, both for the same time. *)
Definition tied : World :=
  let w0 := state_of (UserRepository.add_user
                        (UserSchema.mk 1 None "alive" None []) start) in
  let w1 := state_of (SentMessageRepository.add_message
                        (SentMessage.mk_transient 1 "Текст3" 3 5 true false) w0) in
  let w2 := state_of (SentMessageRepository.add_message
                        (SentMessage.mk_transient 1 "Текст1" 1 5 true false) w1) in
  set_utc 10 w2.

(** Contact 1 is dead since 6 s; the clock is at 20 s. *)
Definition dead_contact : World :=
  at_second 20
    (state_of (send_messages_loop_body (unreachable (at_second 6 onboarded)))).

(** * Properties *)

(** ** Rows of a table: [find], [update_first], [order_by] *)

Section Rows.

Context {A : Type}.
Variable p : A -> bool.

Lemma find_none_iff (l : list A) :
  find p l = None <-> (forall x, In x l -> p x = false).
Proof.
  split.
  - intros H x Hx. exact (find_none p l H x Hx).
  - induction l as [|a l IH]; intros H; simpl; [reflexivity|].
    rewrite (H a (or_introl eq_refl)). apply IH.
    intros x Hx. apply H. now right.
Qed.

Lemma find_first (l1 l2 : list A) (m : A) :
  (forall x, In x l1 -> p x = false) -> p m = true ->
  find p (l1 ++ m :: l2) = Some m.
Proof.
  intros Hl1 Hm. induction l1 as [|a l1 IH]; simpl.
  - now rewrite Hm.
  - rewrite (Hl1 a (or_introl eq_refl)). apply IH.
    intros x Hx. apply Hl1. now right.
Qed.

Lemma find_split (l : list A) (m : A) :
  find p l = Some m ->
  exists l1 l2, l = l1 ++ m :: l2 /\ (forall x, In x l1 -> p x = false)
                /\ p m = true.
Proof.
  induction l as [|a l IH]; simpl; [discriminate|].
  destruct (p a) eqn:Ha.
  - intros [= <-]. exists [], l. repeat split; [|exact Ha].
    intros x [].
  - intros H. destruct (IH H) as (l1 & l2 & -> & Hl1 & Hm).
    exists (a :: l1), l2. repeat split; [|exact Hm].
    intros x [<-|Hx]; [exact Ha|now apply Hl1].
Qed.

Lemma update_first_first (f : A -> A) (l1 l2 : list A) (m : A) :
  (forall x, In x l1 -> p x = false) -> p m = true ->
  update_first p f (l1 ++ m :: l2) = l1 ++ f m :: l2.
Proof.
  intros Hl1 Hm. induction l1 as [|a l1 IH]; simpl.
  - now rewrite Hm.
  - rewrite (Hl1 a (or_introl eq_refl)). f_equal. apply IH.
    intros x Hx. apply Hl1. now right.
Qed.

Lemma update_first_none (f : A -> A) (l : list A) :
  (forall x, In x l -> p x = false) -> update_first p f l = l.
Proof.
  induction l as [|a l IH]; intros H; simpl; [reflexivity|].
  rewrite (H a (or_introl eq_refl)). f_equal. apply IH.
  intros x Hx. apply H. now right.
Qed.

Lemma update_first_map {B} (g : A -> B) (f : A -> A) (l : list A) :
  (forall x, g (f x) = g x) -> map g (update_first p f l) = map g l.
Proof.
  intros Hg. induction l as [|a l IH]; simpl; [reflexivity|].
  destruct (p a); simpl; [now rewrite Hg|now rewrite IH].
Qed.

End Rows.

Section OrderBy.

Context {A : Type}.
Variable key : A -> Z.

(** The head of [ORDER BY key]: a row of least key, and the first such
    row of the scan. *)
Lemma order_by_head (l : list A) :
  match order_by key l with
  | [] => l = []
  | m :: _ =>
      exists l1 l2, l = l1 ++ m :: l2
                    /\ (forall x, In x l -> key m <= key x)
                    /\ (forall x, In x l1 -> key m < key x)
  end.
Proof.
  induction l as [|a l IH]; [reflexivity|].
  unfold order_by in *. simpl.
  destruct (fold_right (insert_by key) [] l) as [|m rest].
  - subst l. simpl. exists [], []. repeat split.
    + intros x [<-|[]]. lia.
    + intros x [].
  - destruct IH as (l1 & l2 & -> & Hmin & Hfirst). simpl.
    destruct (key a <=? key m) eqn:Ham.
    + apply Z.leb_le in Ham. exists [], (l1 ++ m :: l2). repeat split.
      * intros x [<-|Hx]; [lia|]. specialize (Hmin x Hx). lia.
      * intros x [].
    + apply Z.leb_gt in Ham. exists (a :: l1), l2. repeat split.
      * intros x [<-|Hx]; [lia|]. now apply Hmin.
      * intros x [<-|Hx]; [lia|]. now apply Hfirst.
Qed.

End OrderBy.

(** ** The WHERE clauses, as propositions *)

Lemma by_user_and_index_true (user_id index : Z) (m : SentMessage.t) :
  SentMessageRepository.by_user_and_index user_id index m = true
  <-> SentMessage.user_id m = user_id /\ SentMessage.index m = index.
Proof.
  unfold SentMessageRepository.by_user_and_index.
  rewrite andb_true_iff, !Z.eqb_eq. tauto.
Qed.

Lemma by_user_and_index_false (user_id index : Z) (m : SentMessage.t) :
  SentMessageRepository.by_user_and_index user_id index m = false
  <-> ~ (SentMessage.user_id m = user_id /\ SentMessage.index m = index).
Proof.
  rewrite <- by_user_and_index_true.
  destruct (SentMessageRepository.by_user_and_index user_id index m);
    split; congruence.
Qed.

Lemma pending_true (user_id : Z) (now : datetime) (m : SentMessage.t) :
  SentMessageRepository.pending user_id now m = true <-> is_due user_id now m.
Proof.
  unfold SentMessageRepository.pending, is_due.
  rewrite !andb_true_iff, Z.eqb_eq, Z.leb_le, !eqb_true_iff. tauto.
Qed.

Lemma pending_false (user_id : Z) (now : datetime) (m : SentMessage.t) :
  SentMessageRepository.pending user_id now m = false <-> ~ is_due user_id now m.
Proof.
  rewrite <- pending_true.
  destruct (SentMessageRepository.pending user_id now m); split; congruence.
Qed.

(** ** [SentMessageRepository.update_status] *)

Lemma update_status_run (user_id index : Z) (is_sent is_available_sent : bool)
    (w : World) :
  SentMessageRepository.update_status user_id index is_sent is_available_sent w
  = match find (SentMessageRepository.by_user_and_index user_id index)
               (sent_messages w) with
    | Some _ =>
        (Ok true,
         set_log
           (log w ++ [mk_log INFO "Message status updated for user_id, index"
                             [user_id; index]])
           (set_sent_messages
              (update_first
                 (SentMessageRepository.by_user_and_index user_id index)
                 (fun m => SentMessage.set_is_available_sent is_available_sent
                             (SentMessage.set_is_sent is_sent m))
                 (sent_messages w)) w))
    | None => (Ok false, w)
    end.
Proof.
  unfold SentMessageRepository.update_status, try_except.
  destruct (find _ (sent_messages w)); reflexivity.
Qed.

(** C7.  [update_status user_id index True True] (the [markSent] of the
    specification): when no row has that [user_id] and [index], nothing
    changes and the result is [False]; otherwise the first such row of the
    table gets [is_sent = True] and [is_available_sent = True], every
    other row and column and the table of users are as before, and the
    result is [True]. *)
Theorem update_status_mark_sent (w : World) (user_id index : Z) :
  let r := SentMessageRepository.update_status user_id index true true w in
  ((forall x, In x (sent_messages w) ->
              ~ (SentMessage.user_id x = user_id /\ SentMessage.index x = index)) ->
   r = (Ok false, w))
  /\
  (forall l1 m l2,
      sent_messages w = l1 ++ m :: l2 ->
      (forall x, In x l1 ->
                 ~ (SentMessage.user_id x = user_id /\ SentMessage.index x = index)) ->
      SentMessage.user_id m = user_id -> SentMessage.index m = index ->
      value_of r = Ok true
      /\ sent_messages (state_of r)
         = l1 ++ SentMessage.mk (SentMessage.sent_messages_id m) index user_id
                                (SentMessage.message_text m)
                                (SentMessage.sent_at m) true true :: l2
      /\ users (state_of r) = users w).
Proof.
  intros r. subst r. rewrite update_status_run. split.
  - intros Hnone.
    assert (Hf : find (SentMessageRepository.by_user_and_index user_id index)
                      (sent_messages w) = None).
    { apply find_none_iff. intros x Hx. apply by_user_and_index_false. auto. }
    now rewrite Hf.
  - intros l1 m l2 Hrows Hl1 Hu Hi.
    assert (Hl1' : forall x, In x l1 ->
              SentMessageRepository.by_user_and_index user_id index x = false).
    { intros x Hx. apply by_user_and_index_false. auto. }
    assert (Hm : SentMessageRepository.by_user_and_index user_id index m = true).
    { apply by_user_and_index_true. auto. }
    rewrite Hrows, (find_first _ l1 l2 m Hl1' Hm). simpl.
    rewrite (update_first_first _ _ l1 l2 m Hl1' Hm).
    unfold SentMessage.set_is_available_sent, SentMessage.set_is_sent. simpl.
    rewrite Hu, Hi. auto.
Qed.

(** ** [SentMessageRepository.fetch_pending] *)

Lemma fetch_pending_run (user_id : Z) (w : World) :
  SentMessageRepository.fetch_pending user_id w
  = (Ok (option_map SentMessageSchema.from_orm
           (hd_error (order_by SentMessage.sent_at
                        (filter (SentMessageRepository.pending user_id (utc w))
                                (sent_messages w))))), w).
Proof.
  unfold SentMessageRepository.fetch_pending, try_except, bind, utcnow.
  destruct (order_by _ _); reflexivity.
Qed.

(** C4, as the code has it.  [fetch_pending] returns [None] when the
    contact has no due row.  Otherwise it returns a due row of the
    contact whose [sent_at] is the least among the due rows.  The query
    orders by [sent_at] alone: which of several due rows with that least
    [sent_at] it returns is not settled by the code, and this statement
    says nothing of it. *)
Theorem fetch_pending_earliest_due (w : World) (user_id : Z) :
  let r := SentMessageRepository.fetch_pending user_id w in
  ((forall x, In x (sent_messages w) -> ~ is_due user_id (utc w) x) ->
   r = (Ok None, w))
  /\
  (forall x0, In x0 (sent_messages w) -> is_due user_id (utc w) x0 ->
     exists m,
       In m (sent_messages w)
       /\ r = (Ok (Some (SentMessageSchema.from_orm m)), w)
       /\ is_due user_id (utc w) m
       /\ (forall x, In x (sent_messages w) -> is_due user_id (utc w) x ->
                     SentMessage.sent_at m <= SentMessage.sent_at x)).
Proof.
  intros r. subst r. rewrite fetch_pending_run.
  set (p := SentMessageRepository.pending user_id (utc w)).
  split.
  - intros Hnone.
    assert (Hf : filter p (sent_messages w) = []).
    { clear -Hnone. subst p. induction (sent_messages w) as [|a l IH]; simpl.
      - reflexivity.
      - assert (Ha : SentMessageRepository.pending user_id (utc w) a = false).
        { apply pending_false. apply Hnone. now left. }
        rewrite Ha. apply IH. intros x Hx. apply Hnone. now right. }
    now rewrite Hf.
  - intros x0 Hx0 Hdue0.
    pose proof (order_by_head SentMessage.sent_at (filter p (sent_messages w)))
      as Hhead.
    destruct (order_by SentMessage.sent_at (filter p (sent_messages w)))
      as [|m rest].
    + exfalso. apply pending_true in Hdue0.
      assert (Hin : In x0 (filter p (sent_messages w)))
        by (apply filter_In; split; assumption).
      rewrite Hhead in Hin. exact Hin.
    + destruct Hhead as (f1 & f2 & Hsplit & Hmin & _).
      assert (Hin : In m (filter p (sent_messages w))).
      { rewrite Hsplit. apply in_or_app. right. now left. }
      apply filter_In in Hin. destruct Hin as [Hin Hp].
      assert (Hm : is_due user_id (utc w) m) by now apply pending_true.
      exists m. simpl. repeat split; try assumption; try apply Hm.
      intros x Hx Hdue. apply Hmin. apply filter_In. split; [exact Hx|].
      now apply pending_true.
Qed.

Lemma update_status_mark_sent_witness :
  SentMessageRepository.update_status 1 4 true true onboarded
  = (Ok false, onboarded)
  /\ (let r := SentMessageRepository.update_status 1 2 true true onboarded in
      value_of r = Ok true
      /\ sent_messages (state_of r)
         = [SentMessage.mk 1 1 1 "Текст1" 6000000 true false]
             ++ SentMessage.mk 2 2 1 "Текст2" 8000000 true true
             :: [SentMessage.mk 3 3 1 "Текст3" 12000000 true false]
      /\ users (state_of r) = users onboarded).
Proof.
  split.
  - apply (proj1 (update_status_mark_sent onboarded 1 4)).
    intros x Hx [_ Hi]. vm_compute in Hx.
    destruct Hx as [<-|[<-|[<-|[]]]]; discriminate Hi.
  - apply (proj2 (update_status_mark_sent onboarded 1 2)
                 [SentMessage.mk 1 1 1 "Текст1" 6000000 true false]
                 (SentMessage.mk 2 2 1 "Текст2" 8000000 true false)
                 [SentMessage.mk 3 3 1 "Текст3" 12000000 true false]).
    + reflexivity.
    + intros x [<-|[]] [_ Hi]. discriminate Hi.
    + reflexivity.
    + reflexivity.
Defined.

Lemma fetch_pending_earliest_due_witness :
  SentMessageRepository.fetch_pending 1 (at_second 5 onboarded)
  = (Ok None, at_second 5 onboarded)
  /\ (let w := at_second 9 onboarded in
      exists m,
        In m (sent_messages w)
        /\ SentMessageRepository.fetch_pending 1 w
           = (Ok (Some (SentMessageSchema.from_orm m)), w)
        /\ is_due 1 (utc w) m
        /\ (forall x, In x (sent_messages w) -> is_due 1 (utc w) x ->
                      SentMessage.sent_at m <= SentMessage.sent_at x)).
Proof.
  split.
  - apply (proj1 (fetch_pending_earliest_due (at_second 5 onboarded) 1)).
    intros x Hx (_ & _ & _ & Hle). vm_compute in Hx.
    destruct Hx as [<-|[<-|[<-|[]]]]; vm_compute in Hle; apply Hle; reflexivity.
  - apply (proj2 (fetch_pending_earliest_due (at_second 9 onboarded) 1)
                 (SentMessage.mk 2 2 1 "Текст2" 8000000 true false)).
    + vm_compute. right. left. reflexivity.
    + repeat split. vm_compute. discriminate.
Defined.

(** C4, the claim as stated fails: the query has no second key.  With two
    due rows of one contact for the same time, the row of index 3 inserted
    before the row of index 1, the row returned is the one of index 3,
    although a due row of index 1 has the same [sent_at]. *)
Lemma fetch_pending_tie_returns_higher_index :
  exists m m',
    SentMessageRepository.fetch_pending 1 tied
    = (Ok (Some (SentMessageSchema.from_orm m)), tied)
    /\ In m' (sent_messages tied)
    /\ is_due 1 (utc tied) m'
    /\ SentMessage.sent_at m' = SentMessage.sent_at m
    /\ SentMessage.index m' < SentMessage.index m.
Proof.
  exists (SentMessage.mk 1 3 1 "Текст3" 5 true false),
         (SentMessage.mk 2 1 1 "Текст1" 5 true false).
  split; [reflexivity|].
  split; [right; left; reflexivity|].
  split; [|split; reflexivity].
  repeat split. vm_compute. discriminate.
Qed.

(** ** [UserRepository] *)

Lemma get_by_user_id_run (user_id : Z) (w : World) :
  UserRepository.get_by_user_id user_id w
  = (Ok (option_map UserSchema.from_orm
           (find (fun u => User.user_id u =? user_id) (users w))), w).
Proof.
  unfold UserRepository.get_by_user_id, try_except.
  destruct (find _ (users w)); reflexivity.
Qed.

Lemma unknown_user_find (user_id : Z) (w : World) :
  unknown_user user_id w ->
  find (fun u => User.user_id u =? user_id) (users w) = None.
Proof.
  intros H. apply find_none_iff. intros x Hx. apply Z.eqb_neq. now apply H.
Qed.

Lemma unknown_user_existsb (user_id : Z) (w : World) :
  unknown_user user_id w ->
  existsb (fun u => User.user_id u =? user_id) (users w) = false.
Proof.
  intros H. unfold unknown_user in H.
  induction (users w) as [|a l IH]; simpl; [reflexivity|].
  rewrite IH by (intros u Hu; apply H; now right).
  rewrite orb_false_r. apply Z.eqb_neq. apply H. now left.
Qed.

Lemma update_user_run (update_data : UserSchema.t) (w : World) :
  UserRepository.update_user update_data w
  = let is_it := fun u => User.user_id u =? UserSchema.user_id update_data in
    match find is_it (users w) with
    | Some u =>
        let stored :=
          UserRepository.flush (utc w) u
            (User.set_status (UserSchema.status update_data)
               (User.set_user_id (UserSchema.user_id update_data) u)) in
        (Ok (Some (UserSchema.from_orm stored)),
         set_users (update_first is_it (fun _ => stored) (users w)) w)
    | None => (Ok None, w)
    end.
Proof.
  unfold UserRepository.update_user, try_except. simpl.
  destruct (find _ (users w)); reflexivity.
Qed.

(** What the flush of [update_user] stores for a row [u] with the key of
    the payload: the payload's status; the time of the write in
    [status_updated_at] if that status differs from the stored one, and
    the row as it was if it does not. *)
Lemma flush_update (now : datetime) (u : User.t) (user_id : Z) (status : string) :
  User.user_id u = user_id ->
  let stored := UserRepository.flush now u
                  (User.set_status status (User.set_user_id user_id u)) in
  User.user_id stored = user_id
  /\ User.created_at stored = User.created_at u
  /\ User.status stored = status
  /\ (status <> User.status u -> User.status_updated_at stored = now)
  /\ (status = User.status u -> stored = u).
Proof.
  intros Hid. destruct u as [i c s t]. simpl in Hid. subst i.
  unfold UserRepository.flush, User.eqb. simpl.
  rewrite !Z.eqb_refl. simpl. rewrite andb_true_r.
  destruct (String.eqb_spec s status) as [->|Hne]; simpl.
  - repeat split; congruence.
  - repeat split; congruence.
Qed.

(** C8, as the code has it.  [update_user] returns [None] and changes
    nothing when no row of [users] has the payload's [user_id].
    Otherwise it rewrites the first such row and returns it: [created_at]
    is as before and [status] is the payload's; [status_updated_at] is the
    time of the write whenever the payload's status differs from the
    stored one, and the whole row is as before when it does not (the flush
    emits no UPDATE, so [onupdate] does not fire).  The table of messages
    is not touched. *)
Theorem update_user_keeps_created_at (w : World) (update_data : UserSchema.t) :
  let user_id := UserSchema.user_id update_data in
  let r := UserRepository.update_user update_data w in
  (unknown_user user_id w -> r = (Ok None, w))
  /\
  (forall l1 u l2,
      users w = l1 ++ u :: l2 ->
      (forall x, In x l1 -> User.user_id x <> user_id) ->
      User.user_id u = user_id ->
      exists u',
        value_of r = Ok (Some (UserSchema.from_orm u'))
        /\ users (state_of r) = l1 ++ u' :: l2
        /\ sent_messages (state_of r) = sent_messages w
        /\ User.user_id u' = user_id
        /\ User.created_at u' = User.created_at u
        /\ User.status u' = UserSchema.status update_data
        /\ (UserSchema.status update_data <> User.status u ->
            User.status_updated_at u' = utc w)
        /\ (UserSchema.status update_data = User.status u -> u' = u)).
Proof.
  intros user_id r. subst r. rewrite update_user_run. fold user_id. split.
  - intros Hnone. simpl. now rewrite (unknown_user_find _ _ Hnone).
  - intros l1 u l2 Hrows Hl1 Hu. simpl.
    assert (Hl1' : forall x, In x l1 -> (User.user_id x =? user_id) = false).
    { intros x Hx. apply Z.eqb_neq. now apply Hl1. }
    assert (Hu' : (User.user_id u =? user_id) = true) by now apply Z.eqb_eq.
    rewrite Hrows.
    rewrite (find_first (fun x => User.user_id x =? user_id) l1 l2 u Hl1' Hu').
    rewrite (update_first_first (fun x => User.user_id x =? user_id) _
                                l1 l2 u Hl1' Hu').
    destruct (flush_update (utc w) u user_id (UserSchema.status update_data) Hu)
      as (H1 & H2 & H3 & H4 & H5).
    eexists. simpl. repeat split; eauto.
Qed.

Lemma update_user_keeps_created_at_witness :
  UserRepository.update_user (UserSchema.mk 2 None "dead" None []) onboarded
  = (Ok None, onboarded)
  /\ (let r := UserRepository.update_user
                 (UserSchema.mk 1 None "finished" None [UserSchema.f_status])
                 (at_second 12 onboarded) in
      exists u',
        value_of r = Ok (Some (UserSchema.from_orm u'))
        /\ users (state_of r) = [] ++ u' :: []
        /\ sent_messages (state_of r) = sent_messages (at_second 12 onboarded)
        /\ User.user_id u' = 1
        /\ User.created_at u' = 0
        /\ User.status u' = "finished"
        /\ ("finished" <> "alive" -> User.status_updated_at u' = 12000000)
        /\ ("finished" = "alive" -> u' = User.mk 1 0 "alive" 0)).
Proof.
  split.
  - apply (proj1 (update_user_keeps_created_at
                    onboarded (UserSchema.mk 2 None "dead" None []))).
    intros u Hu. vm_compute in Hu. destruct Hu as [<-|[]]. discriminate.
  - apply (proj2 (update_user_keeps_created_at
                    (at_second 12 onboarded)
                    (UserSchema.mk 1 None "finished" None [UserSchema.f_status]))
                 [] (User.mk 1 0 "alive" 0) []).
    + reflexivity.
    + intros x [].
    + reflexivity.
Defined.

(** C8, the claim as stated fails: writing to a contact the status it
    already has leaves [status_updated_at] at its old value, not at the
    time of the write. *)
Lemma update_user_same_status_keeps_status_updated_at :
  let payload := UserSchema.mk 1 None "dead" None [UserSchema.f_status] in
  let r := UserRepository.update_user payload dead_contact in
  map User.status (users dead_contact) = ["dead"]
  /\ utc dead_contact = 20000000
  /\ value_of r = Ok (Some (UserSchema.from_orm (User.mk 1 0 "dead" 6000000)))
  /\ users (state_of r) = [User.mk 1 0 "dead" 6000000]
  /\ 6000000 <> utc dead_contact.
Proof.
  repeat split. vm_compute. discriminate.
Qed.

(** ** Onboarding *)

Lemma add_user_new (user_id : Z) (w : World) :
  unknown_user user_id w ->
  let new_user := User.mk user_id (utc w) "alive" (utc w) in
  UserRepository.add_user
    (UserSchema.mk user_id (Some (import_time w)) "alive"
                   (Some (import_time w)) []) w
  = (Ok (Some (UserSchema.from_orm new_user)),
     set_users (users w ++ [new_user]) w).
Proof.
  intros H. unfold UserRepository.add_user, try_except, bind, utcnow,
    UserRepository.insert_user. simpl.
  now rewrite (unknown_user_existsb _ _ H).
Qed.

Lemma add_message_run (message_data : SentMessage.transient) (w : World) :
  existsb (fun u => User.user_id u =? SentMessage.t_user_id message_data)
          (users w) = true ->
  SentMessageRepository.add_message message_data w
  = (Ok true,
     set_sent_messages
       (sent_messages w
          ++ [SentMessage.persist (sent_messages_id_seq w) message_data])
       (set_sent_messages_id_seq (sent_messages_id_seq w + 1) w)).
Proof.
  intros H. unfold SentMessageRepository.add_message, try_except.
  now rewrite H.
Qed.

Lemma add_initial_messages_for_user_run (user_id : Z) (w : World) :
  existsb (fun u => User.user_id u =? user_id) (users w) = true ->
  let r := add_initial_messages_for_user user_id w in
  value_of r = Ok tt
  /\ users (state_of r) = users w
  /\ sent_messages (state_of r)
     = sent_messages w ++ seeded user_id (utc w) (sent_messages_id_seq w)
  /\ sent_messages_id_seq (state_of r) = sent_messages_id_seq w + 3.
Proof.
  intros H. destruct w as [us ms k t it tr ob lg]. simpl in H.
  unfold add_initial_messages_for_user, try_except, bind, utcnow. simpl.
  unfold SentMessageRepository.add_message, try_except, bind. simpl.
  rewrite H. simpl. rewrite H. simpl. rewrite H. simpl.
  repeat split.
  - rewrite <- !app_assoc. simpl. unfold seeded, SentMessage.persist. simpl.
    replace (k + 1 + 1) with (k + 2) by lia. reflexivity.
  - lia.
Qed.

Lemma get_or_add_user_in_db_new (user_id : Z) (w : World) :
  unknown_user user_id w ->
  let new_user := User.mk user_id (utc w) "alive" (utc w) in
  let r := get_or_add_user_in_db user_id w in
  value_of r = Ok (Some (UserSchema.from_orm new_user))
  /\ users (state_of r) = users w ++ [new_user]
  /\ sent_messages (state_of r)
     = sent_messages w ++ seeded user_id (utc w) (sent_messages_id_seq w)
  /\ sent_messages_id_seq (state_of r) = sent_messages_id_seq w + 3.
Proof.
  intros H new_user.
  unfold get_or_add_user_in_db, try_except, bind.
  rewrite get_by_user_id_run, (unknown_user_find _ _ H). simpl.
  rewrite (add_user_new _ _ H). fold new_user.
  set (w1 := set_users (users w ++ [new_user]) w).
  assert (Hex : existsb (fun u => User.user_id u =? user_id) (users w1) = true).
  { subst w1. simpl. rewrite existsb_app. simpl. rewrite Z.eqb_refl.
    now rewrite orb_true_r. }
  destruct (add_initial_messages_for_user_run user_id w1 Hex)
    as (Hv & Hu & Hm & Hs).
  destruct (add_initial_messages_for_user user_id w1) as [v w2].
  simpl in Hv, Hu, Hm, Hs. subst v. simpl. auto.
Qed.

Lemma get_or_add_user_in_db_known (user_id : Z) (w : World) (u : User.t) :
  find (fun u => User.user_id u =? user_id) (users w) = Some u ->
  get_or_add_user_in_db user_id w = (Ok (Some (UserSchema.from_orm u)), w).
Proof.
  intros H. unfold get_or_add_user_in_db, try_except, bind.
  rewrite get_by_user_id_run, H. reflexivity.
Qed.

Lemma filter_none {A} (p : A -> bool) (l : list A) :
  (forall x, In x l -> p x = false) -> filter p l = [].
Proof.
  induction l as [|a l IH]; intros H; simpl; [reflexivity|].
  rewrite (H a (or_introl eq_refl)). apply IH. intros x Hx. apply H. now right.
Qed.

Lemma unknown_user_has_no_message (user_id : Z) (w : World) :
  unknown_user user_id w -> foreign_key_holds w ->
  filter (fun m => SentMessage.user_id m =? user_id) (sent_messages w) = [].
Proof.
  intros Hu Hfk. apply filter_none. intros m Hm. apply Z.eqb_neq.
  destruct (Hfk m Hm) as (u & Hin & Heq). rewrite <- Heq. now apply Hu.
Qed.

(** C5.  A contact that is not yet in [users] is onboarded by
    [get_or_add_user_in_db]: right after it the contact has exactly three
    rows in [sent_messages], of [index] 1, 2 and 3, each available and not
    sent, each for the time of onboarding plus the delay that
    [config.MESSAGES] gives its index; these three times are strictly
    increasing. *)
Theorem onboarding_seeds_three_messages (w : World) (user_id : Z) :
  unknown_user user_id w -> foreign_key_holds w ->
  let now := utc w in
  let key := sent_messages_id_seq w in
  let r := get_or_add_user_in_db user_id w in
  filter (fun m => SentMessage.user_id m =? user_id) (sent_messages (state_of r))
  = [ SentMessage.mk key 1 user_id "Текст1" (now + delay_of 1) true false;
      SentMessage.mk (key + 1) 2 user_id "Текст2" (now + delay_of 2) true false;
      SentMessage.mk (key + 2) 3 user_id "Текст3" (now + delay_of 3) true false ]
  /\ now + delay_of 1 < now + delay_of 2 < now + delay_of 3.
Proof.
  intros Hu Hfk now key r.
  destruct (get_or_add_user_in_db_new user_id w Hu) as (_ & _ & Hm & _).
  subst r. rewrite Hm. split.
  - rewrite filter_app, (unknown_user_has_no_message _ _ Hu Hfk). simpl.
    rewrite !Z.eqb_refl. reflexivity.
  - vm_compute delay_of. lia.
Qed.

Lemma onboarding_seeds_three_messages_witness :
  filter (fun m => SentMessage.user_id m =? 1)
         (sent_messages (state_of (get_or_add_user_in_db 1 start)))
  = [ SentMessage.mk 1 1 1 "Текст1" (0 + delay_of 1) true false;
      SentMessage.mk (1 + 1) 2 1 "Текст2" (0 + delay_of 2) true false;
      SentMessage.mk (1 + 2) 3 1 "Текст3" (0 + delay_of 3) true false ]
  /\ 0 + delay_of 1 < 0 + delay_of 2 < 0 + delay_of 3.
Proof.
  apply (onboarding_seeds_three_messages start 1).
  - intros u [].
  - intros m [].
Defined.

(** An incoming message of a contact that is in the table changes neither
    table. *)
Lemma message_handler_known_contact (message : Message) (w : World) (u : User.t) :
  outgoing message = false ->
  find (fun u => User.user_id u =? from_user_id message) (users w) = Some u ->
  let r := message_handler message w in
  value_of r = Ok tt
  /\ users (state_of r) = users w
  /\ sent_messages (state_of r) = sent_messages w
  /\ sent_messages_id_seq (state_of r) = sent_messages_id_seq w.
Proof.
  intros Hout Hfind. unfold message_handler, bind. simpl. rewrite Hout. simpl.
  rewrite (get_or_add_user_in_db_known _ _ u) by exact Hfind.
  simpl. auto.
Qed.

(** C6.  Two incoming messages of a contact that was not in [users],
    handled one after the other: both handlers return without an
    exception, the second changes neither table nor the serial, and the
    contact has exactly one row in [users] and exactly three rows in
    [sent_messages]. *)
Theorem onboarding_idempotent (w : World) (first second : Message)
    (later : datetime) :
  outgoing first = false -> outgoing second = false ->
  from_user_id second = from_user_id first ->
  unknown_user (from_user_id first) w -> foreign_key_holds w ->
  let user_id := from_user_id first in
  let r1 := message_handler first w in
  let r2 := message_handler second (set_utc later (state_of r1)) in
  value_of r1 = Ok tt /\ value_of r2 = Ok tt
  /\ users (state_of r2) = users (state_of r1)
  /\ sent_messages (state_of r2) = sent_messages (state_of r1)
  /\ sent_messages_id_seq (state_of r2) = sent_messages_id_seq (state_of r1)
  /\ List.length (filter (fun u => User.user_id u =? user_id)
                         (users (state_of r2))) = 1%nat
  /\ List.length (filter (fun m => SentMessage.user_id m =? user_id)
                         (sent_messages (state_of r2))) = 3%nat.
Proof.
  intros Hout1 Hout2 Hsame Hu Hfk.
  remember (from_user_id first) as uid eqn:Huid.
  intros user_id r1 r2. subst user_id.
  set (new_user := User.mk uid (utc w) "alive" (utc w)).
  assert (H1 : value_of r1 = Ok tt
               /\ users (state_of r1) = users w ++ [new_user]
               /\ sent_messages (state_of r1)
                  = sent_messages w ++ seeded uid (utc w) (sent_messages_id_seq w)).
  { subst r1. unfold message_handler, bind. simpl. rewrite Hout1. simpl.
    rewrite <- Huid. set (w0 := set_log _ w).
    assert (Hu0 : unknown_user uid w0) by exact Hu.
    destruct (get_or_add_user_in_db_new uid w0 Hu0) as (Hv & Hus & Hms & _).
    destruct (get_or_add_user_in_db uid w0) as [v w1].
    simpl in Hv, Hus, Hms. subst v. simpl. auto. }
  destruct H1 as (Hv1 & Hus1 & Hms1).
  assert (Hfind : find (fun u => User.user_id u =? from_user_id second)
                       (users (set_utc later (state_of r1))) = Some new_user).
  { rewrite Hsame. simpl. rewrite Hus1.
    apply find_first.
    - intros x Hx. apply Z.eqb_neq. now apply Hu.
    - apply Z.eqb_refl. }
  destruct (message_handler_known_contact second _ new_user Hout2 Hfind)
    as (Hv2 & Hus2 & Hms2 & Hs2).
  fold r2 in Hv2, Hus2, Hms2, Hs2. simpl in Hus2, Hms2, Hs2.
  repeat split; try assumption.
  - rewrite Hus2, Hus1, filter_app. simpl. rewrite Z.eqb_refl. simpl.
    rewrite filter_none; [reflexivity|].
    intros x Hx. apply Z.eqb_neq. now apply Hu.
  - rewrite Hms2, Hms1, filter_app, (unknown_user_has_no_message _ _ Hu Hfk).
    simpl. rewrite !Z.eqb_refl. reflexivity.
Qed.

Lemma onboarding_idempotent_witness :
  let r1 := message_handler (incoming 1 "hello") start in
  let r2 := message_handler (incoming 1 "hello again")
                            (set_utc 3000000 (state_of r1)) in
  value_of r1 = Ok tt /\ value_of r2 = Ok tt
  /\ users (state_of r2) = users (state_of r1)
  /\ sent_messages (state_of r2) = sent_messages (state_of r1)
  /\ sent_messages_id_seq (state_of r2) = sent_messages_id_seq (state_of r1)
  /\ List.length (filter (fun u => User.user_id u =? 1)
                         (users (state_of r2))) = 1%nat
  /\ List.length (filter (fun m => SentMessage.user_id m =? 1)
                         (sent_messages (state_of r2))) = 3%nat.
Proof.
  apply (onboarding_idempotent start (incoming 1 "hello")
                               (incoming 1 "hello again") 3000000).
  - reflexivity.
  - reflexivity.
  - reflexivity.
  - intros u [].
  - intros m [].
Defined.

(** ** Trigger handling *)

Lemma mark_unavailable_run (user_id index : Z) (w : World) :
  SentMessageRepository.mark_unavailable user_id index w
  = match find (SentMessageRepository.by_user_and_index user_id index)
               (sent_messages w) with
    | Some _ =>
        (Ok true,
         set_log
           (log w ++ [mk_log DEBUG
                             "Message marked as unavailable for user_id, index"
                             [user_id; index]])
           (set_sent_messages
              (update_first
                 (SentMessageRepository.by_user_and_index user_id index)
                 (SentMessage.set_is_available_sent false)
                 (sent_messages w)) w))
    | None => (Ok false, w)
    end.
Proof.
  unfold SentMessageRepository.mark_unavailable, try_except.
  destruct (find _ (sent_messages w)); reflexivity.
Qed.

(** The constructor call of [handle_trigger_for_user] gives neither
    [sent_messages_id] nor [message_text], [is_available_sent], [is_sent]:
    it raises. *)
Lemma trigger_schema_is_invalid (user_id : Z) (event_time : datetime) (w : World) :
  SentMessageSchema.new
    (SentMessageSchema.mk_kwargs None (Some 2) (Some user_id) None
                                 (Some (Some event_time)) None None) w
  = (Raise ValidationError, w).
Proof. reflexivity. Qed.

(** With a trigger word in the text, [handle_trigger_for_user] is
    [mark_unavailable user_id 2] followed by the error line of the
    [except] clause: the schema of the next step is never built. *)
Lemma handle_trigger_for_user_run (user_id : Z) (text : string) (w : World) :
  existsb (fun trigger_word => str_in trigger_word text) config.TRIGGER_WORDS
  = true ->
  handle_trigger_for_user user_id text w
  = let w1 := state_of (SentMessageRepository.mark_unavailable user_id 2 w) in
    (Ok tt,
     set_log (log w1 ++ [mk_log ERROR "Error processing trigger for user"
                                [user_id]]) w1).
Proof.
  intros H. unfold handle_trigger_for_user. rewrite H.
  unfold try_except, bind. rewrite mark_unavailable_run.
  destruct (find _ (sent_messages w)); reflexivity.
Qed.

(** No run of [handle_trigger_for_user] changes the [sent_at] of a row. *)
Lemma handle_trigger_for_user_keeps_sent_at (user_id : Z) (text : string)
    (w : World) :
  map SentMessage.sent_at
      (sent_messages (state_of (handle_trigger_for_user user_id text w)))
  = map SentMessage.sent_at (sent_messages w).
Proof.
  destruct (existsb (fun trigger_word => str_in trigger_word text)
                    config.TRIGGER_WORDS) eqn:H.
  - rewrite (handle_trigger_for_user_run _ _ _ H). simpl.
    rewrite mark_unavailable_run.
    destruct (find _ (sent_messages w)); simpl; [|reflexivity].
    apply update_first_map. reflexivity.
  - unfold handle_trigger_for_user. rewrite H. reflexivity.
Qed.

(** C10.  When the text has a trigger word and the contact has a row of
    index 2, [handle_trigger_for_user] returns without an exception, the
    first such row is left with [is_available_sent = False] and its other
    columns as they were, every other row (so every row of index 3, with
    its [sent_at]) is as it was, and
    the last line of the log is the error line of the [except] clause:
    the step after [mark_unavailable] raised and was caught. *)
Theorem trigger_handling_not_atomic (w : World) (user_id : Z) (text : string)
    (l1 l2 : list SentMessage.t) (second : SentMessage.t) :
  existsb (fun trigger_word => str_in trigger_word text) config.TRIGGER_WORDS
  = true ->
  sent_messages w = l1 ++ second :: l2 ->
  (forall x, In x l1 ->
             ~ (SentMessage.user_id x = user_id /\ SentMessage.index x = 2)) ->
  SentMessage.user_id second = user_id -> SentMessage.index second = 2 ->
  let r := handle_trigger_for_user user_id text w in
  value_of r = Ok tt
  /\ sent_messages (state_of r)
     = l1 ++ SentMessage.mk (SentMessage.sent_messages_id second) 2 user_id
                            (SentMessage.message_text second)
                            (SentMessage.sent_at second) false
                            (SentMessage.is_sent second) :: l2
  /\ (forall x, SentMessage.index x = 3 ->
                (In x (sent_messages (state_of r)) <-> In x (sent_messages w)))
  /\ find (SentMessageRepository.by_user_and_index user_id 3)
          (sent_messages (state_of r))
     = find (SentMessageRepository.by_user_and_index user_id 3) (sent_messages w)
  /\ exists lines,
       log (state_of r)
       = lines ++ [mk_log ERROR "Error processing trigger for user" [user_id]].
Proof.
  intros Htrig Hrows Hl1 Hu Hi r. subst r.
  rewrite (handle_trigger_for_user_run _ _ _ Htrig), mark_unavailable_run.
  assert (Hl1' : forall x, In x l1 ->
            SentMessageRepository.by_user_and_index user_id 2 x = false).
  { intros x Hx. apply by_user_and_index_false. auto. }
  assert (Hm : SentMessageRepository.by_user_and_index user_id 2 second = true).
  { apply by_user_and_index_true. auto. }
  rewrite Hrows, (find_first _ l1 l2 second Hl1' Hm). simpl.
  rewrite (update_first_first _ _ l1 l2 second Hl1' Hm).
  unfold SentMessage.set_is_available_sent. rewrite Hu, Hi.
  repeat split.
  - intros Hin. apply in_app_or in Hin. apply in_or_app.
    destruct Hin as [Hin|[<-|Hin]]; [now left| |right; now right].
    simpl in H. lia.
  - intros Hin. apply in_app_or in Hin. apply in_or_app.
    destruct Hin as [Hin|[<-|Hin]]; [now left| |right; now right].
    lia.
  - clear Hl1 Hl1' Hrows. induction l1 as [|a l1 IH]; simpl.
    + assert (H3 : SentMessageRepository.by_user_and_index user_id 3 second = false).
      { apply by_user_and_index_false. intros [_ H3]. lia. }
      assert (H3' : SentMessageRepository.by_user_and_index user_id 3
                      (SentMessage.mk (SentMessage.sent_messages_id second) 2
                         user_id (SentMessage.message_text second)
                         (SentMessage.sent_at second) false
                         (SentMessage.is_sent second)) = false).
      { apply by_user_and_index_false. simpl. intros [_ H3']. lia. }
      now rewrite H3, H3'.
    + destruct (SentMessageRepository.by_user_and_index user_id 3 a);
        [reflexivity|exact IH].
  - eexists. reflexivity.
Qed.

Lemma trigger_handling_not_atomic_witness :
  let w := at_second 7 first_sent in
  let r := handle_trigger_for_user 1 "это прекрасно" w in
  value_of r = Ok tt
  /\ sent_messages (state_of r)
     = [SentMessage.mk 1 1 1 "Текст1" 6000000 true true]
         ++ SentMessage.mk 2 2 1 "Текст2" 8000000 false false
         :: [SentMessage.mk 3 3 1 "Текст3" 12000000 true false]
  /\ (forall x, SentMessage.index x = 3 ->
                (In x (sent_messages (state_of r)) <-> In x (sent_messages w)))
  /\ find (SentMessageRepository.by_user_and_index 1 3)
          (sent_messages (state_of r))
     = find (SentMessageRepository.by_user_and_index 1 3) (sent_messages w)
  /\ exists lines,
       log (state_of r)
       = lines ++ [mk_log ERROR "Error processing trigger for user" [1]].
Proof.
  apply (trigger_handling_not_atomic
           (at_second 7 first_sent) 1 "это прекрасно"
           [SentMessage.mk 1 1 1 "Текст1" 6000000 true true]
           [SentMessage.mk 3 3 1 "Текст3" 12000000 true false]
           (SentMessage.mk 2 2 1 "Текст2" 8000000 true false)).
  - reflexivity.
  - reflexivity.
  - intros x [<-|[]] [_ Hi]. discriminate Hi.
  - reflexivity.
  - reflexivity.
Defined.

(** ** Runs in which the code departs from the specification *)

(** C3.  Contact 1 is onboarded at 0 s and gets its first message at 6 s;
    at 7 s a message with a trigger word is sent in its chat.  The
    handler returns without an exception and the row of index 2 is no
    longer available, but the row of index 3 is still for 12 s, not for
    the time of the trigger plus its delay, 19 s. *)
Theorem trigger_leaves_third_message_time :
  let w := at_second 7 first_sent in
  let r := message_handler (outgoing_to 1 "это прекрасно") w in
  map User.status (users w) = ["alive"]
  /\ existsb (fun trigger_word => str_in trigger_word "это прекрасно")
             config.TRIGGER_WORDS = true
  /\ value_of r = Ok tt
  /\ map (fun m => (SentMessage.index m, SentMessage.is_available_sent m,
                    SentMessage.sent_at m))
         (sent_messages (state_of r))
     = [(1, true, 6000000); (2, false, 8000000); (3, true, 12000000)]
  /\ utc w + delay_of 3 = 19000000.
Proof. repeat split. Qed.

(** C9.  [update_third_message_time] does not read the [index] of its
    argument: it writes the [sent_at] of the contact's first row of index
    3, as it does at 7 s for a schema of index 2.  But
    [handle_trigger_for_user] never gets to call it: in no run of it does
    the [sent_at] of any row change, and in the run of C3 the row of
    index 3 keeps its time. *)
Theorem update_third_message_time_ignores_index :
  (forall (w : World) (s : SentMessageSchema.t) (index : Z),
      SentMessageRepository.update_third_message_time
        (SentMessageSchema.mk (SentMessageSchema.sent_messages_id s) index
           (SentMessageSchema.user_id s) (SentMessageSchema.message_text s)
           (SentMessageSchema.sent_at s) (SentMessageSchema.is_available_sent s)
           (SentMessageSchema.is_sent s)) w
      = SentMessageRepository.update_third_message_time s w)
  /\ (let w := at_second 7 first_sent in
      let s := SentMessageSchema.mk 0 2 1 None (Some 19000000) None None in
      let r := SentMessageRepository.update_third_message_time s w in
      value_of r = Ok true
      /\ map (fun m => (SentMessage.index m, SentMessage.sent_at m))
             (sent_messages (state_of r))
         = [(1, 6000000); (2, 8000000); (3, 19000000)])
  /\ (forall (w : World) (user_id : Z) (text : string),
        map SentMessage.sent_at
            (sent_messages (state_of (handle_trigger_for_user user_id text w)))
        = map SentMessage.sent_at (sent_messages w))
  /\ (let w := at_second 7 first_sent in
      let r := handle_trigger_for_user 1 "это прекрасно" w in
      map (fun m => (SentMessage.index m, SentMessage.sent_at m))
          (sent_messages (state_of r))
      = [(1, 6000000); (2, 8000000); (3, 12000000)]).
Proof.
  split; [reflexivity|]. split; [split; reflexivity|]. split; [|reflexivity].
  intros w user_id text. apply handle_trigger_for_user_keeps_sent_at.
Qed.

(** C1.  Contact 1 is onboarded at 0 s; at 6 s its first message is due
    and the transport raises on it.  Nothing is delivered, the contact is
    dead, and the round still sets [is_sent] of that message. *)
Theorem failed_delivery_marks_message_sent :
  let w := unreachable (at_second 6 onboarded) in
  let r := send_messages_loop_body w in
  value_of (SentMessageRepository.fetch_pending 1 w)
  = Ok (Some (SentMessageSchema.from_orm
                (SentMessage.mk 1 1 1 "Текст1" 6000000 true false)))
  /\ transport w 1 (Some "Текст1") = false
  /\ value_of r = Ok tt
  /\ outbox (state_of r) = []
  /\ map User.status (users (state_of r)) = [Status.dead]
  /\ map (fun m => (SentMessage.index m, SentMessage.is_sent m))
         (sent_messages (state_of r))
     = [(1, true); (2, false); (3, false)].
Proof. repeat split. Qed.

(** C2.  Contact 1 has got its first two messages; at 12 s the third is
    due and the transport raises on it.  Nothing is delivered, yet at the
    end of the round the contact is finished, not dead (it is not listed
    by [get_all_alive] either way). *)
Theorem failed_delivery_of_third_message_finishes_contact :
  let w := unreachable (at_second 12 second_sent) in
  let r := send_messages_loop_body w in
  map (fun u => (User.user_id u, User.status u)) (users w) = [(1, Status.alive)]
  /\ value_of (SentMessageRepository.fetch_pending 1 w)
     = Ok (Some (SentMessageSchema.from_orm
                   (SentMessage.mk 3 3 1 "Текст3" 12000000 true false)))
  /\ transport w 1 (Some "Текст3") = false
  /\ value_of r = Ok tt
  /\ outbox (state_of r) = outbox w
  /\ map (fun u => (User.user_id u, User.status u)) (users (state_of r))
     = [(1, Status.finished)]
  /\ Status.finished <> Status.dead
  /\ value_of (UserRepository.get_all_alive (state_of r)) = Ok [].
Proof. repeat split. discriminate. Qed.

(** * Further properties of the code *)

(** ** Reasoning on the monad *)

Lemma never_raises_ret {A} (a : A) : never_raises (ret a).
Proof. intros w. now exists a. Qed.

Lemma never_raises_bind {A B} (m : M A) (k : A -> M B) :
  never_raises m -> (forall a, never_raises (k a)) -> never_raises (bind m k).
Proof.
  intros Hm Hk w. unfold bind. destruct (Hm w) as [a Ha].
  destruct (m w) as [v w']. simpl in Ha. subst v. apply Hk.
Qed.

Lemma never_raises_try_except {A} (body : M A) (handler : exn -> M A) :
  (forall e, never_raises (handler e)) ->
  never_raises (try_except Exception body handler).
Proof.
  intros Hh w. unfold try_except. destruct (body w) as [[a|e] w']; simpl.
  - now exists a.
  - apply Hh.
Qed.

Lemma never_raises_for_each {A} (xs : list A) (body : A -> M unit) :
  (forall x, In x xs -> never_raises (body x)) -> never_raises (for_each xs body).
Proof.
  induction xs as [|x xs IH]; intros H; simpl.
  - apply never_raises_ret.
  - apply never_raises_bind; [apply H; now left|].
    intros _. apply IH. intros y Hy. apply H. now right.
Qed.

Lemma never_raises_emit (l : Level) (text : string) (args : list Z) :
  never_raises (logger.emit l text args).
Proof. intros w. now exists tt. Qed.

Section Steady.

Variable R : World -> World -> Prop.
Hypothesis R_refl : forall w, R w w.
Hypothesis R_trans : forall a b c, R a b -> R b c -> R a c.
Hypothesis R_log : forall w l, R w (set_log l w).

Lemma steady_ret {A} (a : A) : steady R (ret a).
Proof. intros w. apply R_refl. Qed.

Lemma steady_raise {A} (e : exn) : steady R (@raise A e).
Proof. intros w. apply R_refl. Qed.

Lemma steady_bind {A B} (m : M A) (k : A -> M B) :
  steady R m -> (forall a, steady R (k a)) -> steady R (bind m k).
Proof.
  intros Hm Hk w. unfold bind. specialize (Hm w).
  destruct (m w) as [[a|e] w']; simpl in *.
  - exact (R_trans _ _ _ Hm (Hk a w')).
  - exact Hm.
Qed.

Lemma steady_bind_with {A B} (Q : A -> Prop) (m : M A) (k : A -> M B) :
  steady R m -> (forall w a, value_of (m w) = Ok a -> Q a) ->
  (forall a, Q a -> steady R (k a)) -> steady R (bind m k).
Proof.
  intros Hm HQ Hk w. unfold bind. specialize (Hm w). specialize (HQ w).
  destruct (m w) as [[a|e] w']; simpl in *.
  - exact (R_trans _ _ _ Hm (Hk a (HQ a eq_refl) w')).
  - exact Hm.
Qed.

Lemma steady_try_except {A} (catches : exn -> bool) (body : M A)
    (handler : exn -> M A) :
  steady R body -> (forall e, steady R (handler e)) ->
  steady R (try_except catches body handler).
Proof.
  intros Hb Hh w. unfold try_except. specialize (Hb w).
  destruct (body w) as [[a|e] w']; simpl in *; [exact Hb|].
  destruct (catches e); [|exact Hb].
  exact (R_trans _ _ _ Hb (Hh e w')).
Qed.

Lemma steady_for_each {A} (xs : list A) (body : A -> M unit) :
  (forall x, In x xs -> steady R (body x)) -> steady R (for_each xs body).
Proof.
  induction xs as [|x xs IH]; intros H; simpl.
  - apply steady_ret.
  - apply steady_bind; [apply H; now left|].
    intros _. apply IH. intros y Hy. apply H. now right.
Qed.

Lemma steady_emit (l : Level) (text : string) (args : list Z) :
  steady R (logger.emit l text args).
Proof. intros w. apply R_log. Qed.

Lemma steady_utcnow : steady R utcnow.
Proof. intros w. apply R_refl. Qed.

Lemma steady_UserSchema_new (user_id : Z) (status : option string) :
  steady R (UserSchema.new user_id status).
Proof. intros w. apply R_refl. Qed.

Lemma steady_fetch_pending (user_id : Z) :
  steady R (SentMessageRepository.fetch_pending user_id).
Proof. intros w. rewrite fetch_pending_run. apply R_refl. Qed.

Lemma steady_get_by_user_id (user_id : Z) :
  steady R (UserRepository.get_by_user_id user_id).
Proof. intros w. rewrite get_by_user_id_run. apply R_refl. Qed.

End Steady.

(** ** Rows that are rewritten in place *)

Lemma Forall2_same {A} (R : A -> A -> Prop) (l : list A) :
  (forall x, R x x) -> Forall2 R l l.
Proof. intros H. induction l; constructor; auto. Qed.

Lemma Forall2_chain {A} (R : A -> A -> Prop) (l1 l2 l3 : list A) :
  (forall x y z, R x y -> R y z -> R x z) ->
  Forall2 R l1 l2 -> Forall2 R l2 l3 -> Forall2 R l1 l3.
Proof.
  intros Ht H12. revert l3.
  induction H12 as [|x y l1 l2 Hxy _ IH]; intros l3 H23;
    inversion H23; subst; constructor; eauto.
Qed.

Lemma Forall2_update_first {A} (R : A -> A -> Prop) (p : A -> bool)
    (f : A -> A) (l : list A) :
  (forall x, R x x) -> (forall x, In x l -> p x = true -> R x (f x)) ->
  Forall2 R l (update_first p f l).
Proof.
  intros Hr. induction l as [|a l IH]; intros Hf; simpl; [constructor|].
  destruct (p a) eqn:Ha.
  - constructor; [apply Hf; [now left|exact Ha]|now apply Forall2_same].
  - constructor; [apply Hr|]. apply IH. intros x Hx. apply Hf. now right.
Qed.

Lemma Forall2_weaken {A} (R S : A -> A -> Prop) (l l' : list A) :
  (forall x y, R x y -> S x y) -> Forall2 R l l' -> Forall2 S l l'.
Proof. intros H HR. induction HR; constructor; auto. Qed.

Lemma update_status_tables (user_id index : Z) (is_sent is_available_sent : bool)
    (w : World) :
  let r := SentMessageRepository.update_status
             user_id index is_sent is_available_sent w in
  sent_messages (state_of r)
  = update_first (SentMessageRepository.by_user_and_index user_id index)
      (fun m => SentMessage.set_is_available_sent is_available_sent
                  (SentMessage.set_is_sent is_sent m))
      (sent_messages w)
  /\ users (state_of r) = users w
  /\ outbox (state_of r) = outbox w
  /\ utc (state_of r) = utc w
  /\ exists b, value_of r = Ok b.
Proof.
  simpl. rewrite update_status_run.
  destruct (find _ (sent_messages w)) eqn:Hf; simpl.
  - repeat split. now exists true.
  - rewrite update_first_none by (now apply find_none_iff).
    repeat split. now exists false.
Qed.

(** ** The relation [dispatched] *)

Lemma user_step_refl (P : Z -> Prop) (u : User.t) : user_step P u u.
Proof. now left. Qed.

Lemma user_step_trans (P : Z -> Prop) (a b c : User.t) :
  user_step P a b -> user_step P b c -> user_step P a c.
Proof.
  intros [->|(Hp & Hi & Hc & Hs)] [->|(Hp' & Hi' & Hc' & Hs')].
  - now left.
  - right. auto.
  - right. auto.
  - right. repeat split; solve [congruence | assumption].
Qed.

Lemma message_step_refl (P : Z -> Prop) (m : SentMessage.t) : message_step P m m.
Proof. now left. Qed.

Lemma message_step_trans (P : Z -> Prop) (a b c : SentMessage.t) :
  message_step P a b -> message_step P b c -> message_step P a c.
Proof.
  intros [->|(Hp & ->)] [->|(Hp' & ->)].
  - now left.
  - right. auto.
  - right. auto.
  - right. split; [exact Hp|]. reflexivity.
Qed.

Lemma dispatched_refl (P : Z -> Prop) (w : World) : dispatched P w w.
Proof.
  repeat split.
  - apply Forall2_same, user_step_refl.
  - apply Forall2_same, message_step_refl.
  - exists []. split; [now rewrite app_nil_r|constructor].
Qed.

Lemma dispatched_trans (P : Z -> Prop) (a b c : World) :
  dispatched P a b -> dispatched P b c -> dispatched P a c.
Proof.
  intros (Hu & Hm & (s & Ho & Hs) & Hk & Ht & Hi)
         (Hu' & Hm' & (s' & Ho' & Hs') & Hk' & Ht' & Hi').
  repeat split; try congruence.
  - exact (Forall2_chain _ _ _ _ (user_step_trans P) Hu Hu').
  - exact (Forall2_chain _ _ _ _ (message_step_trans P) Hm Hm').
  - exists (s ++ s'). split.
    + rewrite Ho', Ho. now rewrite app_assoc.
    + apply Forall_app. auto.
Qed.

Lemma dispatched_log (P : Z -> Prop) (w : World) (l : list LogRecord) :
  dispatched P w (set_log l w).
Proof. exact (dispatched_refl P w). Qed.

Lemma dispatched_clock (P : Z -> Prop) (w : World) (t : datetime) :
  dispatched P w (set_utc t w).
Proof. exact (dispatched_refl P w). Qed.

Lemma dispatched_weaken (P Q : Z -> Prop) (w w' : World) :
  (forall id, P id -> Q id) -> dispatched P w w' -> dispatched Q w w'.
Proof.
  intros H (Hu & Hm & (s & Ho & Hs) & Hk & Ht & Hi). repeat split; auto.
  - apply (Forall2_weaken (user_step P)); [|exact Hu].
    intros x y [->|(Hp & Hr)]; [now left|right; auto].
  - apply (Forall2_weaken (message_step P)); [|exact Hm].
    intros x y [->|(Hp & Hr)]; [now left|right; auto].
  - exists s. split; [exact Ho|].
    apply (Forall_impl _ (fun a Ha => H _ Ha) Hs).
Qed.

Lemma Forall2_update_found {A} (R : A -> A -> Prop) (p : A -> bool)
    (c : A) (l : list A) (u : A) :
  (forall x, R x x) -> find p l = Some u -> R u c ->
  Forall2 R l (update_first p (fun _ => c) l).
Proof.
  intros Hr Hf Hc. induction l as [|a l IH]; simpl in *; [discriminate|].
  destruct (p a).
  - injection Hf as ->. constructor; [exact Hc|now apply Forall2_same].
  - constructor; [apply Hr|now apply IH].
Qed.

Lemma steady_update_user (P : Z -> Prop) (update_data : UserSchema.t) :
  P (UserSchema.user_id update_data) ->
  UserSchema.status update_data = Status.dead
  \/ UserSchema.status update_data = Status.finished ->
  steady (dispatched P) (UserRepository.update_user update_data).
Proof.
  intros Hp Hs w. rewrite update_user_run. simpl.
  destruct (find _ (users w)) as [u|] eqn:Hf; simpl;
    [|apply dispatched_refl].
  pose proof (find_some _ _ Hf) as [_ Hu]. apply Z.eqb_eq in Hu.
  destruct (flush_update (utc w) u _ (UserSchema.status update_data) Hu)
    as (H1 & H2 & H3 & _ & _).
  split; [|split; [|split; [|repeat split]]].
  - simpl. apply (Forall2_update_found _ _ _ _ u); [apply user_step_refl|exact Hf|].
    right. repeat split.
    + now rewrite Hu.
    + congruence.
    + exact H2.
    + now rewrite H3.
  - apply Forall2_same, message_step_refl.
  - exists []. split; [now rewrite app_nil_r|constructor].
Qed.

Lemma steady_update_status (P : Z -> Prop) (user_id index : Z) :
  P user_id ->
  steady (dispatched P)
         (SentMessageRepository.update_status user_id index true true).
Proof.
  intros Hp w.
  destruct (update_status_tables user_id index true true w)
    as (Hms & Hus & Hob & _ & _).
  assert (Hrest : sent_messages_id_seq
                    (state_of (SentMessageRepository.update_status
                                 user_id index true true w))
                  = sent_messages_id_seq w
                  /\ transport (state_of (SentMessageRepository.update_status
                                            user_id index true true w))
                     = transport w
                  /\ import_time (state_of (SentMessageRepository.update_status
                                              user_id index true true w))
                     = import_time w).
  { rewrite update_status_run. destruct (find _ (sent_messages w)); simpl; auto. }
  destruct Hrest as (Hk & Ht & Hi).
  split; [|split; [|split; [|repeat split; assumption]]].
  - rewrite Hus. apply Forall2_same, user_step_refl.
  - rewrite Hms. apply Forall2_update_first; [apply message_step_refl|].
    intros x _ Hx. apply by_user_and_index_true in Hx. destruct Hx as [Hx _].
    right. split; [now rewrite Hx|reflexivity].
  - exists []. split; [now rewrite app_nil_r|constructor].
Qed.

Lemma steady_app_send_message (P : Z -> Prop) (user_id : Z)
    (text : option string) :
  P user_id -> steady (dispatched P) (app_send_message user_id text).
Proof.
  intros Hp w. unfold app_send_message.
  destruct (transport w user_id text); simpl; [|apply dispatched_refl].
  split; [|split; [|split; [|repeat split]]].
  - apply Forall2_same, user_step_refl.
  - apply Forall2_same, message_step_refl.
  - exists [(user_id, text)]. split; [reflexivity|]. constructor; [exact Hp|constructor].
Qed.

(** ** The dispatch loop only serves, and only touches, the contacts it
    lists *)

Lemma never_raises_update_user (update_data : UserSchema.t) :
  never_raises (UserRepository.update_user update_data).
Proof.
  intros w. rewrite update_user_run. simpl.
  destruct (find _ (users w)); simpl; eauto.
Qed.

Lemma never_raises_update_status (user_id index : Z) (s a : bool) :
  never_raises (SentMessageRepository.update_status user_id index s a).
Proof.
  intros w. destruct (update_status_tables user_id index s a w)
    as (_ & _ & _ & _ & H). exact H.
Qed.

Lemma never_raises_fetch_pending (user_id : Z) :
  never_raises (SentMessageRepository.fetch_pending user_id).
Proof. intros w. rewrite fetch_pending_run. simpl. eauto. Qed.

Lemma never_raises_UserSchema_new (user_id : Z) (status : option string) :
  never_raises (UserSchema.new user_id status).
Proof. intros w. simpl. eauto. Qed.

Lemma never_raises_send_message (user_id : Z) (text : option string) :
  never_raises (send_message user_id text).
Proof.
  apply never_raises_try_except. intros e.
  apply never_raises_bind; [apply never_raises_UserSchema_new|]. intros schema.
  apply never_raises_bind; [apply never_raises_update_user|]. intros _.
  apply never_raises_emit.
Qed.

Lemma never_raises_send_pending_message (user : UserSchema.t) :
  never_raises (send_pending_message user).
Proof.
  unfold send_pending_message.
  apply never_raises_bind; [apply never_raises_fetch_pending|].
  intros [message_to_send|].
  - apply never_raises_bind; [apply never_raises_emit|]. intros _.
    apply never_raises_bind; [apply never_raises_send_message|]. intros _.
    apply never_raises_bind; [apply never_raises_update_status|]. intros _.
    apply never_raises_bind; [apply never_raises_emit|]. intros _.
    destruct (SentMessageSchema.index message_to_send =? 3).
    + apply never_raises_bind; [apply never_raises_UserSchema_new|]. intros s.
      apply never_raises_bind; [apply never_raises_update_user|]. intros _.
      apply never_raises_emit.
    + apply never_raises_ret.
  - apply never_raises_bind; [apply never_raises_emit|]. intros _.
    apply never_raises_emit.
Qed.

Section Served.

Variable R : World -> World -> Prop.
Variable P : Z -> Prop.
Hypothesis R_refl : forall w, R w w.
Hypothesis R_trans : forall a b c, R a b -> R b c -> R a c.
Hypothesis R_log : forall w l, R w (set_log l w).
Hypothesis R_update_user :
  forall update_data,
    P (UserSchema.user_id update_data) ->
    UserSchema.status update_data = Status.dead
    \/ UserSchema.status update_data = Status.finished ->
    steady R (UserRepository.update_user update_data).
Hypothesis R_update_status :
  forall user_id index,
    P user_id ->
    steady R (SentMessageRepository.update_status user_id index true true).
Hypothesis R_app_send_message :
  forall user_id text, P user_id -> steady R (app_send_message user_id text).

(** [update_user(UserSchema(user_id=user_id, status=status))] and a line
    of the log. *)
Lemma steady_set_status (user_id : Z) (status : string) (l : Level)
    (text : string) :
  P user_id -> status = Status.dead \/ status = Status.finished ->
  steady R (schema <- UserSchema.new user_id (Some status) ;;
            UserRepository.update_user schema ;;
            logger.emit l text [user_id]).
Proof.
  intros Hp Hs.
  apply (steady_bind_with R R_trans
           (fun s => UserSchema.user_id s = user_id
                     /\ UserSchema.status s = status)).
  - apply steady_UserSchema_new, R_refl.
  - intros w a [= <-]. split; reflexivity.
  - intros schema [Hid Hst]. apply (steady_bind R R_trans).
    + apply R_update_user; [now rewrite Hid|now rewrite Hst].
    + intros _. apply steady_emit, R_log.
Qed.

Lemma steady_send_message (user_id : Z) (text : option string) :
  P user_id -> steady R (send_message user_id text).
Proof.
  intros Hp. apply (steady_try_except R R_trans).
  - apply (steady_bind R R_trans).
    + now apply R_app_send_message.
    + intros _. apply steady_emit, R_log.
  - intros e. apply steady_set_status; [exact Hp|now left].
Qed.

Lemma steady_send_pending_message (user : UserSchema.t) :
  P (UserSchema.user_id user) -> steady R (send_pending_message user).
Proof.
  intros Hp. unfold send_pending_message.
  apply (steady_bind R R_trans); [apply steady_fetch_pending, R_refl|].
  intros [message_to_send|].
  - apply (steady_bind R R_trans); [apply steady_emit, R_log|]. intros _.
    apply (steady_bind R R_trans); [now apply steady_send_message|]. intros _.
    apply (steady_bind R R_trans); [now apply R_update_status|]. intros _.
    apply (steady_bind R R_trans); [apply steady_emit, R_log|]. intros _.
    destruct (SentMessageSchema.index message_to_send =? 3).
    + apply steady_set_status; [exact Hp|now right].
    + apply steady_ret, R_refl.
  - apply (steady_bind R R_trans); [apply steady_emit, R_log|]. intros _.
    apply steady_emit, R_log.
Qed.

Lemma steady_for_each_send_pending_message (listed : list UserSchema.t) :
  (forall user, In user listed -> P (UserSchema.user_id user)) ->
  steady R (for_each listed send_pending_message).
Proof.
  intros H. apply (steady_for_each R R_refl R_trans).
  intros x Hx. apply steady_send_pending_message. now apply H.
Qed.

End Served.

Lemma get_all_alive_run (w : World) :
  UserRepository.get_all_alive w
  = (Ok (map UserSchema.from_orm
           (filter (fun u => String.eqb (User.status u) "alive") (users w))), w).
Proof. reflexivity. Qed.

Lemma alive_ids_spec (w : World) (id : Z) :
  In id (alive_ids w)
  <-> exists u, In u (users w) /\ User.user_id u = id
                /\ User.status u = Status.alive.
Proof.
  unfold alive_ids. rewrite in_map_iff. split.
  - intros (u & Hid & Hin). apply filter_In in Hin. destruct Hin as [Hin Hs].
    apply String.eqb_eq in Hs. eauto.
  - intros (u & Hin & Hid & Hs). exists u. split; [exact Hid|].
    apply filter_In. split; [exact Hin|]. now apply String.eqb_eq.
Qed.

Lemma same_clock_update_user (update_data : UserSchema.t) :
  steady same_clock (UserRepository.update_user update_data).
Proof.
  intros w. rewrite update_user_run. simpl.
  destruct (find _ (users w)); reflexivity.
Qed.

Lemma same_clock_update_status (user_id index : Z) (s a : bool) :
  steady same_clock (SentMessageRepository.update_status user_id index s a).
Proof.
  intros w. destruct (update_status_tables user_id index s a w)
    as (_ & _ & _ & H & _). exact H.
Qed.

Lemma same_clock_app_send_message (user_id : Z) (text : option string) :
  steady same_clock (app_send_message user_id text).
Proof.
  intros w. unfold app_send_message.
  destruct (transport w user_id text); reflexivity.
Qed.

(** One round of the loop returns; it changes the store only as
    [dispatched] allows for the contacts that were alive at its start,
    and it does not move the clock. *)
Lemma send_messages_loop_body_run (w : World) :
  let r := send_messages_loop_body w in
  value_of r = Ok tt
  /\ dispatched (fun id => In id (alive_ids w)) w (state_of r)
  /\ utc (state_of r) = utc w.
Proof.
  set (P := fun id => In id (alive_ids w)).
  set (listed := map UserSchema.from_orm
                     (filter (fun u => String.eqb (User.status u) "alive")
                             (users w))).
  assert (Hlisted : forall user, In user listed -> P (UserSchema.user_id user)).
  { intros user Hin. subst listed P. apply in_map_iff in Hin.
    destruct Hin as (u & <- & Hu). simpl. unfold alive_ids.
    apply in_map. exact Hu. }
  assert (Hrest : forall w0,
             value_of (for_each listed send_pending_message w0) = Ok tt
             /\ dispatched P w0 (state_of (for_each listed send_pending_message w0))
             /\ same_clock w0 (state_of (for_each listed send_pending_message w0))).
  { intros w0. split; [|split].
    - destruct (never_raises_for_each listed send_pending_message
                  (fun x _ => never_raises_send_pending_message x) w0)
        as [[] Hv]. exact Hv.
    - apply (steady_for_each_send_pending_message
               (dispatched P) P (dispatched_refl P) (dispatched_trans P)
               (dispatched_log P) (steady_update_user P)
               (steady_update_status P) (steady_app_send_message P)).
      exact Hlisted.
    - apply (steady_for_each_send_pending_message
               same_clock (fun _ => True)
               (fun w => eq_refl)
               (fun a b c (Hab : same_clock a b) (Hbc : same_clock b c) =>
                  eq_trans Hbc Hab)
               (fun w l => eq_refl)
               (fun d _ _ => same_clock_update_user d)
               (fun u i _ => same_clock_update_status u i true true)
               (fun u x _ => same_clock_app_send_message u x)).
      intros; exact I. }
  unfold send_messages_loop_body, bind. rewrite get_all_alive_run. fold listed.
  set (count := match listed with
                | [] => ret tt
                | _ :: _ => logger.debug "Processing alive users"
                                         [Z.of_nat (List.length listed)]
                end).
  assert (Hcount : exists w0, count w = (Ok tt, w0) /\ dispatched P w w0
                              /\ utc w0 = utc w).
  { subst count. destruct listed; eexists; (split; [reflexivity|]);
      (split; [first [apply dispatched_refl|apply dispatched_log]|reflexivity]). }
  destruct Hcount as (w0 & -> & Hd0 & Hc0).
  destruct (Hrest w0) as (Hv & Hd & Hc).
  destruct (for_each listed send_pending_message w0) as [v w1].
  simpl in *. subst v. split; [reflexivity|]. split.
  - exact (dispatched_trans P _ _ _ Hd0 Hd).
  - unfold same_clock in Hc. congruence.
Qed.

Lemma dispatched_any (P : Z -> Prop) (w w' : World) :
  dispatched P w w' -> dispatched (fun _ => True) w w'.
Proof. apply dispatched_weaken. auto. Qed.

Lemma asyncio_sleep_run (seconds : Z) (w : World) :
  asyncio_sleep seconds w
  = (Ok tt, set_utc (utc w + timedelta_seconds seconds) w).
Proof. reflexivity. Qed.

(** Any number of rounds of the loop: they return, and the clock has
    advanced by the sleeps. *)
Lemma send_messages_loop_run (rounds : nat) (w : World) :
  let r := send_messages_loop rounds w in
  value_of r = Ok tt
  /\ dispatched (fun _ => True) w (state_of r)
  /\ utc (state_of r) = utc w + Z.of_nat rounds * timedelta_seconds 10.
Proof.
  revert w. induction rounds as [|n IH]; intros w.
  - simpl. split; [reflexivity|]. split; [apply dispatched_refl|lia].
  - destruct (send_messages_loop_body_run w) as (Hv & Hd & Hc).
    cbn [send_messages_loop]. unfold bind.
    destruct (send_messages_loop_body w) as [v w1]. simpl in Hv, Hd, Hc.
    subst v. rewrite asyncio_sleep_run.
    set (w2 := set_utc _ w1).
    destruct (IH w2) as (Hv' & Hd' & Hc').
    split; [exact Hv'|]. split.
    + apply (dispatched_trans _ w w1); [exact (dispatched_any _ _ _ Hd)|].
      apply (dispatched_trans _ w1 w2); [apply dispatched_clock|exact Hd'].
    + rewrite Hc'. subst w2. simpl. rewrite Hc. lia.
Qed.

Lemma Forall2_map_eq {A B} (R : A -> A -> Prop) (f : A -> B) (l l' : list A) :
  (forall x y, R x y -> f y = f x) -> Forall2 R l l' -> map f l' = map f l.
Proof.
  intros H HR. induction HR as [|x y l l' Hxy _ IH]; simpl; [reflexivity|].
  now rewrite (H x y Hxy), IH.
Qed.

(** X1.  The dispatch loop, over any number of rounds, adds and removes no
    row; it changes neither the key nor
    [created_at] of a contact, nor the key, index, contact, text or time
    of a message; it does not draw from the serial; a message that was
    sent stays sent, and a contact that was not alive stays so. *)
Theorem dispatch_loop_keeps_rows (rounds : nat) (w : World) :
  let r := send_messages_loop rounds w in
  map (fun u => (User.user_id u, User.created_at u)) (users (state_of r))
  = map (fun u => (User.user_id u, User.created_at u)) (users w)
  /\ map (fun m => (SentMessage.sent_messages_id m, SentMessage.index m,
                    SentMessage.user_id m, SentMessage.message_text m,
                    SentMessage.sent_at m))
         (sent_messages (state_of r))
     = map (fun m => (SentMessage.sent_messages_id m, SentMessage.index m,
                      SentMessage.user_id m, SentMessage.message_text m,
                      SentMessage.sent_at m))
           (sent_messages w)
  /\ sent_messages_id_seq (state_of r) = sent_messages_id_seq w
  /\ Forall2 (fun m m' => SentMessage.is_sent m = true ->
                          SentMessage.is_sent m' = true)
             (sent_messages w) (sent_messages (state_of r))
  /\ Forall2 (fun u u' => User.status u <> Status.alive ->
                          User.status u' <> Status.alive)
             (users w) (users (state_of r)).
Proof.
  destruct (send_messages_loop_run rounds w)
    as (_ & (Hu & Hm & _ & Hk & _ & _) & _).
  simpl. repeat split; try assumption.
  - apply (Forall2_map_eq (user_step (fun _ => True))); [|exact Hu].
    intros x y [->|(_ & Hi & Hcr & _)]; [reflexivity|]. now rewrite Hi, Hcr.
  - apply (Forall2_map_eq (message_step (fun _ => True))); [|exact Hm].
    intros x y [->|(_ & ->)]; reflexivity.
  - apply (Forall2_weaken (message_step (fun _ => True))); [|exact Hm].
    intros x y [->|(_ & ->)]; [auto|reflexivity].
  - apply (Forall2_weaken (user_step (fun _ => True))); [|exact Hu].
    intros x y [->|(_ & _ & _ & [Hs|Hs])] Hx; [exact Hx| |];
      rewrite Hs; discriminate.
Qed.

(** ** A contact that is not alive is out of the loop's reach *)

Lemma not_alive_not_listed (user_id : Z) (w : World) :
  not_alive user_id w <-> ~ In user_id (alive_ids w).
Proof.
  rewrite alive_ids_spec. split.
  - intros H (u & Hin & Hid & Hs). exact (H u Hin Hid Hs).
  - intros H u Hin Hid Hs. apply H. eauto.
Qed.

Lemma dispatched_others_users (user_id : Z) (l l' : list User.t) :
  Forall2 (user_step (fun id => id <> user_id)) l l' ->
  filter (fun u => User.user_id u =? user_id) l'
  = filter (fun u => User.user_id u =? user_id) l.
Proof.
  intros H. induction H as [|x y l l' Hxy _ IH]; simpl; [reflexivity|].
  destruct Hxy as [->|(Hne & Hid & _)]; [now rewrite IH|].
  rewrite Hid. apply Z.eqb_neq in Hne. now rewrite Hne.
Qed.

Lemma dispatched_others_messages (user_id : Z) (l l' : list SentMessage.t) :
  Forall2 (message_step (fun id => id <> user_id)) l l' ->
  filter (fun m => SentMessage.user_id m =? user_id) l'
  = filter (fun m => SentMessage.user_id m =? user_id) l.
Proof.
  intros H. induction H as [|x y l l' Hxy _ IH]; simpl; [reflexivity|].
  destruct Hxy as [->|(Hne & ->)]; [now rewrite IH|].
  simpl. apply Z.eqb_neq in Hne. now rewrite Hne.
Qed.

Lemma not_alive_filter (user_id : Z) (w w' : World) :
  filter (fun u => User.user_id u =? user_id) (users w')
  = filter (fun u => User.user_id u =? user_id) (users w) ->
  not_alive user_id w -> not_alive user_id w'.
Proof.
  intros Hf H u Hin Hid.
  assert (Hin' : In u (filter (fun u => User.user_id u =? user_id) (users w'))).
  { apply filter_In. split; [exact Hin|]. now apply Z.eqb_eq. }
  rewrite Hf in Hin'. apply filter_In in Hin'. apply (H u); tauto.
Qed.

Lemma send_messages_loop_frozen (rounds : nat) (w : World) (user_id : Z) :
  not_alive user_id w ->
  dispatched (fun id => id <> user_id) w (state_of (send_messages_loop rounds w)).
Proof.
  revert w. induction rounds as [|n IH]; intros w Hna.
  - apply dispatched_refl.
  - destruct (send_messages_loop_body_run w) as (Hv & Hd & _).
    cbn [send_messages_loop]. unfold bind.
    destruct (send_messages_loop_body w) as [v w1]. simpl in Hv, Hd.
    subst v. rewrite asyncio_sleep_run.
    set (w2 := set_utc _ w1).
    assert (Hd1 : dispatched (fun id => id <> user_id) w w1).
    { apply (dispatched_weaken (fun id => In id (alive_ids w))); [|exact Hd].
      intros id Hin ->. now apply (proj1 (not_alive_not_listed _ _) Hna). }
    assert (Hna2 : not_alive user_id w2).
    { apply (not_alive_filter user_id w); [|exact Hna].
      apply dispatched_others_users. exact (proj1 Hd1). }
    apply (dispatched_trans _ w w1); [exact Hd1|].
    apply (dispatched_trans _ w1 w2); [apply dispatched_clock|].
    exact (IH w2 Hna2).
Qed.

(** X2.  A contact that is not alive (dead or finished) is never served again:
    over any number of rounds of the dispatch loop its row of [users] and
    its rows of [sent_messages] stay exactly as they are, nothing is
    handed to the transport for it, and [get_all_alive] does not list
    it. *)
Theorem contact_not_alive_is_frozen (rounds : nat) (w : World) (user_id : Z) :
  not_alive user_id w ->
  let w' := state_of (send_messages_loop rounds w) in
  filter (fun u => User.user_id u =? user_id) (users w')
  = filter (fun u => User.user_id u =? user_id) (users w)
  /\ filter (fun m => SentMessage.user_id m =? user_id) (sent_messages w')
     = filter (fun m => SentMessage.user_id m =? user_id) (sent_messages w)
  /\ (exists sent, outbox w' = outbox w ++ sent
                   /\ forall x, In x sent -> fst x <> user_id)
  /\ (forall schema, value_of (UserRepository.get_all_alive w') = Ok schema ->
                     ~ In user_id (map UserSchema.user_id schema)).
Proof.
  intros Hna w'.
  destruct (send_messages_loop_frozen rounds w user_id Hna)
    as (Hu & Hm & (sent & Ho & Hs) & _).
  fold w' in Hu, Hm, Ho.
  pose proof (dispatched_others_users _ _ _ Hu) as Hfu.
  split; [exact Hfu|]. split; [now apply dispatched_others_messages|].
  split.
  - exists sent. split; [exact Ho|]. now apply Forall_forall.
  - intros schema Hv. rewrite get_all_alive_run in Hv. simpl in Hv.
    injection Hv as <-. rewrite map_map. simpl.
    apply (not_alive_not_listed user_id w').
    exact (not_alive_filter user_id w w' Hfu Hna).
Qed.

Lemma contact_not_alive_is_frozen_witness :
  let w' := state_of (send_messages_loop 3 dead_contact) in
  filter (fun u => User.user_id u =? 1) (users w')
  = filter (fun u => User.user_id u =? 1) (users dead_contact)
  /\ filter (fun m => SentMessage.user_id m =? 1) (sent_messages w')
     = filter (fun m => SentMessage.user_id m =? 1) (sent_messages dead_contact)
  /\ (exists sent, outbox w' = outbox dead_contact ++ sent
                   /\ forall x, In x sent -> fst x <> 1)
  /\ (forall schema, value_of (UserRepository.get_all_alive w') = Ok schema ->
                     ~ In 1 (map UserSchema.user_id schema)).
Proof.
  assert (E : users dead_contact = [User.mk 1 0 "dead" 6000000])
    by (vm_compute; reflexivity).
  assert (H : not_alive 1 dead_contact).
  { intros u Hin _. rewrite E in Hin. destruct Hin as [<-|[]]. discriminate. }
  exact (contact_not_alive_is_frozen 3 dead_contact 1 H).
Defined.

(** ** One contact's turn in the dispatch loop *)

(** The call of [update_status] in the goal is replaced by what
    [update_status_tables] says of its result. *)
Ltac run_update_status :=
  match goal with
  | |- context [SentMessageRepository.update_status ?u ?i ?s ?a ?w1] =>
      let Hms := fresh "Hms" in
      let Hus := fresh "Hus" in
      let Hob := fresh "Hob" in
      let Hutc := fresh "Hutc" in
      let Hb := fresh "Hb" in
      let b := fresh "b" in
      let v := fresh "v" in
      let w2 := fresh "w" in
      destruct (update_status_tables u i s a w1)
        as (Hms & Hus & Hob & Hutc & b & Hb);
      destruct (SentMessageRepository.update_status u i s a w1) as [v w2];
      simpl in Hms, Hus, Hob, Hutc, Hb; subst v; simpl;
      try rewrite Hms; try rewrite Hob; try rewrite Hutc
  end.

(** The contact's turn when a message is due: the message is handed to
    the transport; whether the transport delivers it or raises, the
    message is then marked sent, and the contact ends finished if the
    message has index 3; otherwise a contact whose delivery failed ends
    dead. *)
Lemma send_pending_message_run (w : World) (user : UserSchema.t)
    (m : SentMessage.t) (l1 l2 : list User.t) (u : User.t) :
  let user_id := UserSchema.user_id user in
  SentMessageRepository.fetch_pending user_id w
  = (Ok (Some (SentMessageSchema.from_orm m)), w) ->
  users w = l1 ++ u :: l2 ->
  (forall x, In x l1 -> User.user_id x <> user_id) ->
  User.user_id u = user_id -> User.status u = Status.alive ->
  let delivered := transport w user_id (Some (SentMessage.message_text m)) in
  let r := send_pending_message user w in
  value_of r = Ok tt
  /\ outbox (state_of r)
     = (if delivered
        then outbox w ++ [(user_id, Some (SentMessage.message_text m))]
        else outbox w)
  /\ sent_messages (state_of r)
     = update_first
         (SentMessageRepository.by_user_and_index user_id (SentMessage.index m))
         (fun x => SentMessage.set_is_available_sent true
                     (SentMessage.set_is_sent true x))
         (sent_messages w)
  /\ users (state_of r)
     = l1 ++ (if SentMessage.index m =? 3
              then User.mk user_id (User.created_at u) Status.finished (utc w)
              else if delivered then u
                   else User.mk user_id (User.created_at u) Status.dead (utc w))
          :: l2.
Proof.
  intros user_id Hfetch Hrows Hl1 Hu Halive delivered r. subst r.
  assert (Hl1' : forall x, In x l1 -> (User.user_id x =? user_id) = false).
  { intros x Hx. apply Z.eqb_neq. now apply Hl1. }
  destruct u as [ui uc us ut]. simpl in Hu, Halive. subst ui us.
  set (alive := User.mk user_id uc Status.alive ut) in *.
  assert (Hu' : (User.user_id alive =? user_id) = true) by apply Z.eqb_refl.
  unfold send_pending_message, bind. fold user_id. rewrite Hfetch. simpl.
  unfold send_message, try_except, bind, app_send_message. simpl.
  fold delivered. destruct delivered; simpl.
  - (* delivered *)
    run_update_status.
    destruct (SentMessage.index m =? 3) eqn:H3; simpl.
    + rewrite update_user_run. simpl. rewrite Hus. simpl. rewrite Hrows.
      rewrite (find_first (fun x => User.user_id x =? user_id) l1 l2 alive Hl1' Hu').
      rewrite (update_first_first (fun x => User.user_id x =? user_id) _
                                  l1 l2 alive Hl1' Hu').
      simpl. rewrite Hms, Hob, Hutc. simpl.
      unfold UserRepository.flush, User.eqb. simpl.
      rewrite !Z.eqb_refl. simpl. auto.
    + rewrite Hms, Hob, Hus. simpl. auto.
  - (* the transport raised *)
    rewrite update_user_run. simpl. rewrite Hrows.
    rewrite (find_first (fun x => User.user_id x =? user_id) l1 l2 alive Hl1' Hu').
    rewrite (update_first_first (fun x => User.user_id x =? user_id) _
                                l1 l2 alive Hl1' Hu').
    simpl.
    set (stored := UserRepository.flush _ _ _).
    set (dead := User.mk user_id uc Status.dead (utc w)).
    assert (Hdead : stored = dead).
    { subst stored dead alive. unfold UserRepository.flush, User.eqb. simpl.
      rewrite !Z.eqb_refl. reflexivity. }
    rewrite Hdead. clear stored Hdead.
    run_update_status.
    assert (Hd' : (User.user_id dead =? user_id) = true) by apply Z.eqb_refl.
    destruct (SentMessage.index m =? 3) eqn:H3; simpl.
    + rewrite update_user_run. simpl. rewrite Hus.
      rewrite (find_first (fun x => User.user_id x =? user_id) l1 l2 dead Hl1' Hd').
      rewrite (update_first_first (fun x => User.user_id x =? user_id) _
                                  l1 l2 dead Hl1' Hd').
      simpl. rewrite Hms, Hob, Hutc. simpl.
      unfold UserRepository.flush, User.eqb. simpl.
      rewrite !Z.eqb_refl. simpl. auto.
    + rewrite Hms, Hob, Hus. simpl. auto.
Qed.

Lemma not_listed_when_only_row_not_alive (w : World) (user_id : Z)
    (l1 l2 : list User.t) (u : User.t) :
  users w = l1 ++ u :: l2 ->
  (forall x, In x l1 -> User.user_id x <> user_id) ->
  (forall x, In x l2 -> User.user_id x <> user_id) ->
  User.status u <> Status.alive ->
  ~ In user_id (alive_ids w).
Proof.
  intros Hrows Hl1 Hl2 Hs Hin. apply alive_ids_spec in Hin.
  destruct Hin as (x & Hx & Hid & Hst). rewrite Hrows in Hx.
  apply in_app_or in Hx. destruct Hx as [Hx|[<-|Hx]].
  - exact (Hl1 x Hx Hid).
  - exact (Hs Hst).
  - exact (Hl2 x Hx Hid).
Qed.

(** X3.  A delivery that succeeds.  When [fetch_pending] gives the turn of an
    alive contact a message and the transport delivers it, the message
    (the contact's first row of that index) gets [is_sent = True], the
    transport has got exactly this one text for the contact, and the
    contact's row is rewritten only if the message has index 3: then it
    is finished, with the time of the round. *)
Theorem delivery_marks_message_sent (w : World) (user : UserSchema.t)
    (m : SentMessage.t) (l1 l2 : list User.t) (u : User.t)
    (r1 r2 : list SentMessage.t) :
  let user_id := UserSchema.user_id user in
  SentMessageRepository.fetch_pending user_id w
  = (Ok (Some (SentMessageSchema.from_orm m)), w) ->
  transport w user_id (Some (SentMessage.message_text m)) = true ->
  users w = l1 ++ u :: l2 ->
  (forall x, In x l1 -> User.user_id x <> user_id) ->
  User.user_id u = user_id -> User.status u = Status.alive ->
  sent_messages w = r1 ++ m :: r2 ->
  (forall x, In x r1 -> ~ (SentMessage.user_id x = user_id
                           /\ SentMessage.index x = SentMessage.index m)) ->
  SentMessage.user_id m = user_id ->
  let r := send_pending_message user w in
  value_of r = Ok tt
  /\ outbox (state_of r)
     = outbox w ++ [(user_id, Some (SentMessage.message_text m))]
  /\ sent_messages (state_of r)
     = r1 ++ SentMessage.mk (SentMessage.sent_messages_id m)
                            (SentMessage.index m) user_id
                            (SentMessage.message_text m)
                            (SentMessage.sent_at m) true true :: r2
  /\ users (state_of r)
     = (if SentMessage.index m =? 3
        then l1 ++ User.mk user_id (User.created_at u) Status.finished (utc w)
                :: l2
        else users w).
Proof.
  intros user_id Hfetch Hsend Hrows Hl1 Hu Halive Hmsgs Hr1 Hm r.
  destruct (send_pending_message_run w user m l1 l2 u Hfetch Hrows Hl1 Hu Halive)
    as (Hv & Ho & Hms & Hus).
  fold user_id r in Hv, Ho, Hms, Hus. fold user_id in Hsend.
  rewrite Hsend in Ho, Hus.
  split; [exact Hv|]. split; [exact Ho|]. split.
  - rewrite Hms, Hmsgs.
    rewrite update_first_first.
    + unfold SentMessage.set_is_available_sent, SentMessage.set_is_sent.
      simpl. now rewrite Hm.
    + intros x Hx. apply by_user_and_index_false. now apply Hr1.
    + apply by_user_and_index_true. auto.
  - rewrite Hus. destruct (SentMessage.index m =? 3); [reflexivity|].
    now rewrite Hrows.
Qed.

(** X4.  A delivery that fails, for a message of index 1 or 2: the transport
    raises, nothing is delivered, and the contact, whose only row this
    is, is dead with the time of the round and is not listed by
    [get_all_alive] any more. *)
Theorem failed_delivery_kills_contact (w : World) (user : UserSchema.t)
    (m : SentMessage.t) (l1 l2 : list User.t) (u : User.t) :
  let user_id := UserSchema.user_id user in
  SentMessageRepository.fetch_pending user_id w
  = (Ok (Some (SentMessageSchema.from_orm m)), w) ->
  transport w user_id (Some (SentMessage.message_text m)) = false ->
  SentMessage.index m <> 3 ->
  users w = l1 ++ u :: l2 ->
  (forall x, In x l1 -> User.user_id x <> user_id) ->
  (forall x, In x l2 -> User.user_id x <> user_id) ->
  User.user_id u = user_id -> User.status u = Status.alive ->
  let r := send_pending_message user w in
  value_of r = Ok tt
  /\ outbox (state_of r) = outbox w
  /\ users (state_of r)
     = l1 ++ User.mk user_id (User.created_at u) Status.dead (utc w) :: l2
  /\ ~ In user_id (alive_ids (state_of r)).
Proof.
  intros user_id Hfetch Hsend Hidx Hrows Hl1 Hl2 Hu Halive r.
  destruct (send_pending_message_run w user m l1 l2 u Hfetch Hrows Hl1 Hu Halive)
    as (Hv & Ho & _ & Hus).
  fold user_id r in Hv, Ho, Hus. fold user_id in Hsend.
  rewrite Hsend in Ho, Hus. apply Z.eqb_neq in Hidx. rewrite Hidx in Hus.
  repeat split; try assumption.
  apply (not_listed_when_only_row_not_alive _ _ l1 l2 _ Hus Hl1 Hl2).
  discriminate.
Qed.

(** X5.  The turn of the message of index 3: whether the transport delivers
    it or raises, the contact, whose only row this is, ends finished,
    with the time of the round, and is not listed by [get_all_alive] any
    more. *)
Theorem third_message_finishes_contact (w : World) (user : UserSchema.t)
    (m : SentMessage.t) (l1 l2 : list User.t) (u : User.t) :
  let user_id := UserSchema.user_id user in
  SentMessageRepository.fetch_pending user_id w
  = (Ok (Some (SentMessageSchema.from_orm m)), w) ->
  SentMessage.index m = 3 ->
  users w = l1 ++ u :: l2 ->
  (forall x, In x l1 -> User.user_id x <> user_id) ->
  (forall x, In x l2 -> User.user_id x <> user_id) ->
  User.user_id u = user_id -> User.status u = Status.alive ->
  let r := send_pending_message user w in
  value_of r = Ok tt
  /\ users (state_of r)
     = l1 ++ User.mk user_id (User.created_at u) Status.finished (utc w) :: l2
  /\ ~ In user_id (alive_ids (state_of r)).
Proof.
  intros user_id Hfetch Hidx Hrows Hl1 Hl2 Hu Halive r.
  destruct (send_pending_message_run w user m l1 l2 u Hfetch Hrows Hl1 Hu Halive)
    as (Hv & _ & _ & Hus).
  fold user_id r in Hv, Hus. rewrite Hidx in Hus. simpl in Hus.
  repeat split; try assumption.
  apply (not_listed_when_only_row_not_alive _ _ l1 l2 _ Hus Hl1 Hl2).
  discriminate.
Qed.

Lemma delivery_marks_message_sent_witness :
  let w := at_second 6 onboarded in
  let r := send_pending_message (UserSchema.from_orm (User.mk 1 0 "alive" 0)) w in
  value_of r = Ok tt
  /\ outbox (state_of r) = outbox w ++ [(1, Some "Текст1")]
  /\ sent_messages (state_of r)
     = [] ++ SentMessage.mk 1 1 1 "Текст1" 6000000 true true
          :: [SentMessage.mk 2 2 1 "Текст2" 8000000 true false;
              SentMessage.mk 3 3 1 "Текст3" 12000000 true false]
  /\ users (state_of r) = users w.
Proof.
  apply (delivery_marks_message_sent
           (at_second 6 onboarded) (UserSchema.from_orm (User.mk 1 0 "alive" 0))
           (SentMessage.mk 1 1 1 "Текст1" 6000000 true false)
           [] [] (User.mk 1 0 "alive" 0) []
           [SentMessage.mk 2 2 1 "Текст2" 8000000 true false;
            SentMessage.mk 3 3 1 "Текст3" 12000000 true false]);
    try (vm_compute; reflexivity); intros x [].
Defined.

Lemma failed_delivery_kills_contact_witness :
  let w := unreachable (at_second 6 onboarded) in
  let r := send_pending_message (UserSchema.from_orm (User.mk 1 0 "alive" 0)) w in
  value_of r = Ok tt
  /\ outbox (state_of r) = outbox w
  /\ users (state_of r) = [] ++ User.mk 1 0 Status.dead 6000000 :: []
  /\ ~ In 1 (alive_ids (state_of r)).
Proof.
  apply (failed_delivery_kills_contact
           (unreachable (at_second 6 onboarded))
           (UserSchema.from_orm (User.mk 1 0 "alive" 0))
           (SentMessage.mk 1 1 1 "Текст1" 6000000 true false)
           [] [] (User.mk 1 0 "alive" 0));
    try (vm_compute; reflexivity); try (intros x []). discriminate.
Defined.

Lemma third_message_finishes_contact_witness :
  let w := at_second 12 second_sent in
  let r := send_pending_message (UserSchema.from_orm (User.mk 1 0 "alive" 0)) w in
  value_of r = Ok tt
  /\ users (state_of r) = [] ++ User.mk 1 0 Status.finished 12000000 :: []
  /\ ~ In 1 (alive_ids (state_of r)).
Proof.
  apply (third_message_finishes_contact
           (at_second 12 second_sent)
           (UserSchema.from_orm (User.mk 1 0 "alive" 0))
           (SentMessage.mk 3 3 1 "Текст3" 12000000 true false)
           [] [] (User.mk 1 0 "alive" 0));
    try (vm_compute; reflexivity); intros x [].
Defined.

(** ** A message has one turn *)

Lemma same_messages_update_user (update_data : UserSchema.t) :
  steady (fun w w' => sent_messages w' = sent_messages w)
         (UserRepository.update_user update_data).
Proof.
  intros w. rewrite update_user_run. simpl.
  destruct (find _ (users w)); reflexivity.
Qed.

Lemma same_messages_send_message (user_id : Z) (text : option string) :
  steady (fun w w' => sent_messages w' = sent_messages w)
         (send_message user_id text).
Proof.
  apply (steady_send_message
           (fun w w' => sent_messages w' = sent_messages w) (fun _ => True)
           (fun w => eq_refl)
           (fun a b c Hab Hbc => eq_trans Hbc Hab)
           (fun w l => eq_refl)
           (fun d _ _ => same_messages_update_user d)).
  - intros u x _ w. unfold app_send_message.
    destruct (transport w u x); reflexivity.
  - exact I.
Qed.

(** Whatever the transport does, the turn of a contact for which
    [fetch_pending] gives a message ends with [update_status] on the
    index of that message. *)
Lemma send_pending_message_messages (w : World) (user : UserSchema.t)
    (s : SentMessageSchema.t) :
  let user_id := UserSchema.user_id user in
  SentMessageRepository.fetch_pending user_id w = (Ok (Some s), w) ->
  sent_messages (state_of (send_pending_message user w))
  = update_first
      (SentMessageRepository.by_user_and_index user_id (SentMessageSchema.index s))
      (fun x => SentMessage.set_is_available_sent true
                  (SentMessage.set_is_sent true x))
      (sent_messages w).
Proof.
  intros user_id Hfetch.
  unfold send_pending_message, bind. fold user_id. rewrite Hfetch. simpl.
  match goal with |- context [send_message ?u ?x ?w0] =>
    pose proof (same_messages_send_message u x w0) as Hsame;
    destruct (never_raises_send_message u x w0) as [[] Hv];
    destruct (send_message u x w0) as [v w1]
  end.
  simpl in Hsame, Hv. subst v.
  run_update_status.
  destruct (SentMessageSchema.index s =? 3).
  - match goal with |- context [UserRepository.update_user ?d ?w0] =>
      pose proof (same_messages_update_user d w0) as Hsame';
      destruct (never_raises_update_user d w0) as [a Hv'];
      destruct (UserRepository.update_user d w0) as [v w3]
    end.
    simpl in Hsame', Hv'. subst v. simpl. rewrite Hsame'. simpl.
    rewrite Hms, Hsame. reflexivity.
  - simpl. rewrite Hms, Hsame. reflexivity.
Qed.

(** X6.  A message is handed to the transport at most once.  Once
    [fetch_pending] has given a contact's turn the message [m], the only
    row of that contact with that index, that row is marked sent, and it
    stays so over any number of further rounds of the loop: at no later
    time is a row of that contact and index due again. *)
Theorem message_has_one_turn (w : World) (user : UserSchema.t)
    (m : SentMessage.t) (r1 r2 : list SentMessage.t) (rounds : nat) :
  let user_id := UserSchema.user_id user in
  let same := fun x => SentMessage.user_id x = user_id
                       /\ SentMessage.index x = SentMessage.index m in
  SentMessageRepository.fetch_pending user_id w
  = (Ok (Some (SentMessageSchema.from_orm m)), w) ->
  sent_messages w = r1 ++ m :: r2 ->
  (forall x, In x r1 -> ~ same x) -> (forall x, In x r2 -> ~ same x) ->
  SentMessage.user_id m = user_id ->
  let w1 := state_of (send_pending_message user w) in
  let w2 := state_of (send_messages_loop rounds w1) in
  forall x, In x (sent_messages w2) -> same x ->
            SentMessage.is_sent x = true /\ forall now, ~ is_due user_id now x.
Proof.
  intros user_id same Hfetch Hrows Hr1 Hr2 Hm w1 w2 x Hx Hsame.
  assert (Hsent : SentMessage.is_sent x = true);
    [|split; [exact Hsent|intros now (_ & _ & Hd & _); congruence]].
  (* the rows after the turn *)
  assert (Hrows1 : sent_messages w1
                   = r1 ++ SentMessage.set_is_available_sent true
                             (SentMessage.set_is_sent true m) :: r2).
  { subst w1. rewrite (send_pending_message_messages w user _ Hfetch).
    fold user_id. simpl. rewrite Hrows.
    rewrite (update_first_first
               (SentMessageRepository.by_user_and_index
                  user_id (SentMessage.index m)) _ r1 r2 m); [reflexivity| |].
    - intros y Hy. apply by_user_and_index_false. now apply Hr1.
    - apply by_user_and_index_true. split; [exact Hm|reflexivity]. }
  (* the rows after the rounds, one for one *)
  destruct (send_messages_loop_run rounds w1) as (_ & (_ & Hstep & _) & _).
  fold w2 in Hstep.
  assert (Hall : forall l l', Forall2 (message_step (fun _ => True)) l l' ->
            (forall y, In y l -> same y -> SentMessage.is_sent y = true) ->
            forall y, In y l' -> same y -> SentMessage.is_sent y = true).
  { clear. intros l l' H. induction H as [|a b l l' Hab _ IH]; intros Hl y Hy Hs.
    - destruct Hy.
    - destruct Hy as [<-|Hy].
      + destruct Hab as [->|(_ & ->)]; [|reflexivity].
        apply Hl; [now left|exact Hs].
      + apply IH; try assumption. intros z Hz. apply Hl. now right. }
  apply (Hall _ _ Hstep); try assumption.
  intros y Hy Hs. rewrite Hrows1 in Hy. apply in_app_or in Hy.
  destruct Hy as [Hy|[<-|Hy]].
  - destruct (Hr1 y Hy Hs).
  - reflexivity.
  - destruct (Hr2 y Hy Hs).
Qed.

Lemma message_has_one_turn_witness :
  let x := SentMessage.mk 1 1 1 "Текст1" 6000000 true true in
  SentMessage.is_sent x = true /\ forall now, ~ is_due 1 now x.
Proof.
  apply (message_has_one_turn
           (unreachable (at_second 6 onboarded))
           (UserSchema.from_orm (User.mk 1 0 "alive" 0))
           (SentMessage.mk 1 1 1 "Текст1" 6000000 true false)
           []
           [SentMessage.mk 2 2 1 "Текст2" 8000000 true false;
            SentMessage.mk 3 3 1 "Текст3" 12000000 true false] 2).
  - vm_compute. reflexivity.
  - vm_compute. reflexivity.
  - intros x [].
  - intros x [<-|[<-|[]]] [_ Hi]; discriminate Hi.
  - reflexivity.
  - vm_compute. left. reflexivity.
  - split; reflexivity.
Defined.

(** ** What the inbound handler may change *)

Lemma message_kept_trans (a b c : SentMessage.t) :
  message_kept a b -> message_kept b c -> message_kept a c.
Proof.
  intros [-> | ->] [-> | ->].
  - now left.
  - now right.
  - now right.
  - right. reflexivity.
Qed.

Lemma handled_refl (w : World) : handled w w.
Proof.
  split; [|split; [|split; reflexivity]].
  - exists []. now rewrite app_nil_r.
  - exists (sent_messages w), []. split; [now rewrite app_nil_r|].
    apply Forall2_same. now left.
Qed.

Lemma handled_trans (a b c : World) : handled a b -> handled b c -> handled a c.
Proof.
  intros ((n1 & Hu1) & (rows1 & new1 & Hm1 & Hk1) & Ho1 & Hc1)
         ((n2 & Hu2) & (rows2 & new2 & Hm2 & Hk2) & Ho2 & Hc2).
  split; [|split; [|split; congruence]].
  - exists (n1 ++ n2). rewrite Hu2, Hu1. now rewrite app_assoc.
  - rewrite Hm1 in Hk2. apply Forall2_app_inv_l in Hk2.
    destruct Hk2 as (ra & rb & Hka & Hkb & ->).
    exists ra, (rb ++ new2). split.
    + rewrite Hm2. now rewrite app_assoc.
    + exact (Forall2_chain _ _ _ _ message_kept_trans Hk1 Hka).
Qed.

Lemma handled_log (w : World) (l : list LogRecord) : handled w (set_log l w).
Proof. exact (handled_refl w). Qed.

Lemma handled_add_user (user_data : UserSchema.t) :
  steady handled (UserRepository.add_user user_data).
Proof.
  intros w. unfold UserRepository.add_user, try_except, bind, utcnow,
    UserRepository.insert_user. simpl.
  destruct (existsb _ (users w)); simpl.
  - apply handled_log.
  - split; [|split; [|split; reflexivity]].
    + eexists. reflexivity.
    + exists (sent_messages w), []. split; [now rewrite app_nil_r|].
      apply Forall2_same. now left.
Qed.

Lemma handled_add_message (message_data : SentMessage.transient) :
  steady handled (SentMessageRepository.add_message message_data).
Proof.
  intros w. unfold SentMessageRepository.add_message, try_except.
  destruct (existsb _ (users w)); simpl.
  - split; [|split; [|split; reflexivity]].
    + exists []. now rewrite app_nil_r.
    + eexists (sent_messages w), _. split; [reflexivity|].
      apply Forall2_same. now left.
  - exact (handled_refl w).
Qed.

Lemma handled_add_initial_messages_for_user (user_id : Z) :
  steady handled (add_initial_messages_for_user user_id).
Proof.
  unfold add_initial_messages_for_user.
  apply (steady_bind handled handled_trans);
    [apply steady_utcnow, handled_refl|]. intros now.
  apply (steady_try_except handled handled_trans).
  - apply (steady_for_each handled handled_refl handled_trans).
    intros message _.
    apply (steady_bind handled handled_trans); [apply handled_add_message|].
    intros _. apply steady_emit, handled_log.
  - intros e. apply steady_emit, handled_log.
Qed.

Lemma handled_get_or_add_user_in_db (user_id : Z) :
  steady handled (get_or_add_user_in_db user_id).
Proof.
  unfold get_or_add_user_in_db.
  apply (steady_try_except handled handled_trans).
  - apply (steady_bind handled handled_trans);
      [apply steady_get_by_user_id, handled_refl|].
    intros [user|]; [apply steady_ret, handled_refl|].
    apply (steady_bind handled handled_trans);
      [apply steady_UserSchema_new, handled_refl|]. intros schema.
    apply (steady_bind handled handled_trans); [apply handled_add_user|].
    intros user.
    apply (steady_bind handled handled_trans);
      [apply handled_add_initial_messages_for_user|]. intros _.
    apply (steady_bind handled handled_trans);
      [apply steady_emit, handled_log|]. intros _.
    apply steady_ret, handled_refl.
  - intros e. apply (steady_bind handled handled_trans);
      [apply steady_emit, handled_log|]. intros _.
    apply steady_ret, handled_refl.
Qed.

Lemma handled_mark_unavailable (user_id index : Z) :
  steady handled (SentMessageRepository.mark_unavailable user_id index).
Proof.
  intros w. rewrite mark_unavailable_run.
  destruct (find _ (sent_messages w)); [|apply handled_refl].
  split; [|split; [|split; reflexivity]].
  - exists []. now rewrite app_nil_r.
  - eexists _, []. split; [simpl; now rewrite app_nil_r|].
    apply Forall2_update_first; [now left|]. intros x _ _. now right.
Qed.

Lemma handled_handle_trigger_for_user (user_id : Z) (text : string) :
  steady handled (handle_trigger_for_user user_id text).
Proof.
  intros w.
  destruct (existsb (fun trigger_word => str_in trigger_word text)
                    config.TRIGGER_WORDS) eqn:H.
  - rewrite (handle_trigger_for_user_run _ _ _ H). simpl.
    apply (handled_trans _ _ _ (handled_mark_unavailable user_id 2 w)).
    apply handled_log.
  - unfold handle_trigger_for_user. rewrite H. apply handled_refl.
Qed.

Lemma handled_message_handler (message : Message) :
  steady handled (message_handler message).
Proof.
  unfold message_handler.
  apply (steady_bind handled handled_trans);
    [apply steady_emit, handled_log|]. intros _.
  destruct (negb (outgoing message)).
  - apply (steady_bind handled handled_trans);
      [apply handled_get_or_add_user_in_db|].
    intros _. apply steady_ret, handled_refl.
  - apply (steady_bind handled handled_trans);
      [apply steady_get_by_user_id, handled_refl|]. intros user.
    apply (steady_bind handled handled_trans);
      [apply steady_emit, handled_log|]. intros _.
    destruct user as [user|]; [|apply steady_ret, handled_refl].
    destruct (String.eqb (UserSchema.status user) Status.alive);
      [|apply steady_ret, handled_refl].
    apply (steady_bind handled handled_trans);
      [apply steady_emit, handled_log|]. intros _.
    apply handled_handle_trigger_for_user.
Qed.

(** X7.  The inbound handler, whatever the message and the store: the rows
    of [users] are as before, with at most
    new rows after them, so no status changes; the rows of
    [sent_messages] are as before but for [is_available_sent], which it
    may set to [False], with at most new rows after them, so no message
    becomes sent or unsent and no time of a message changes; nothing is
    handed to the transport. *)
Theorem message_handler_keeps_status_and_sent (message : Message) (w : World) :
  let r := message_handler message w in
  (exists new, users (state_of r) = users w ++ new)
  /\ (exists rows new,
        sent_messages (state_of r) = rows ++ new
        /\ Forall2 (fun m m' =>
                      m' = m
                      \/ m' = SentMessage.mk (SentMessage.sent_messages_id m)
                                (SentMessage.index m) (SentMessage.user_id m)
                                (SentMessage.message_text m)
                                (SentMessage.sent_at m) false
                                (SentMessage.is_sent m))
                   (sent_messages w) rows)
  /\ outbox (state_of r) = outbox w.
Proof.
  destruct (handled_message_handler message w) as (Hu & Hm & Ho & _).
  simpl. split; [exact Hu|]. split; [exact Hm|exact Ho].
Qed.

(** ** Rounds in which nothing is due *)

Lemma fetch_pending_nothing_due (user_id : Z) (w : World) :
  (forall x, In x (sent_messages w) -> ~ is_due user_id (utc w) x) ->
  SentMessageRepository.fetch_pending user_id w = (Ok None, w).
Proof.
  intros H. rewrite fetch_pending_run.
  rewrite filter_none; [reflexivity|].
  intros x Hx. apply pending_false. now apply H.
Qed.

Lemma send_pending_message_idle (user : UserSchema.t) (w : World) :
  (forall x, In x (sent_messages w) ->
             ~ is_due (UserSchema.user_id user) (utc w) x) ->
  exists lines, send_pending_message user w = (Ok tt, set_log (log w ++ lines) w).
Proof.
  intros H. unfold send_pending_message, bind.
  rewrite (fetch_pending_nothing_due _ _ H). simpl.
  exists [mk_log DEBUG "Found messages to send for user" [UserSchema.user_id user];
          mk_log DEBUG "No messages to send for user at this time"
                 [UserSchema.user_id user]].
  unfold logger.debug, logger.emit, set_log. simpl.
  rewrite <- app_assoc. reflexivity.
Qed.

Lemma for_each_send_pending_message_idle (listed : list UserSchema.t) (w : World) :
  (forall user x, In user listed -> In x (sent_messages w) ->
                  ~ is_due (UserSchema.user_id user) (utc w) x) ->
  exists lines,
    for_each listed send_pending_message w = (Ok tt, set_log (log w ++ lines) w).
Proof.
  revert w. induction listed as [|user listed IH]; intros w H.
  - exists []. simpl. unfold ret, set_log. rewrite app_nil_r.
    now destruct w.
  - simpl. unfold bind.
    destruct (send_pending_message_idle user w) as [l1 ->].
    { intros x Hx. apply (H user x); [now left|exact Hx]. }
    destruct (IH (set_log (log w ++ l1) w)) as [l2 ->].
    { intros u x Hu Hx. apply (H u x); [now right|exact Hx]. }
    exists (l1 ++ l2). unfold set_log. simpl. now rewrite app_assoc.
Qed.

(** X8.  A round of the dispatch loop in which no alive contact has a due row
    (none yet, or only rows that are sent or unavailable) writes lines to
    the log and does nothing else: no table changes and nothing is handed
    to the transport. *)
Theorem idle_round_changes_nothing (w : World) :
  (forall id x, In id (alive_ids w) -> In x (sent_messages w) ->
                ~ is_due id (utc w) x) ->
  exists lines,
    send_messages_loop_body w = (Ok tt, set_log (log w ++ lines) w).
Proof.
  intros H. unfold send_messages_loop_body, bind. rewrite get_all_alive_run.
  set (listed := map UserSchema.from_orm
                     (filter (fun u => String.eqb (User.status u) "alive")
                             (users w))).
  assert (Hl : forall user, In user listed ->
                            In (UserSchema.user_id user) (alive_ids w)).
  { intros user Hin. subst listed. apply in_map_iff in Hin.
    destruct Hin as (u & <- & Hu). simpl. unfold alive_ids.
    apply in_map. exact Hu. }
  set (count := match listed with
                | [] => ret tt
                | _ :: _ => logger.debug "Processing alive users"
                                         [Z.of_nat (List.length listed)]
                end).
  assert (Hcount : exists l0, count w = (Ok tt, set_log (log w ++ l0) w)).
  { subst count. destruct listed.
    - exists []. unfold ret, set_log. rewrite app_nil_r. now destruct w.
    - eexists. reflexivity. }
  destruct Hcount as (l0 & ->).
  destruct (for_each_send_pending_message_idle listed (set_log (log w ++ l0) w))
    as [l1 ->].
  { intros u x Hu Hx. apply (H (UserSchema.user_id u) x); [now apply Hl|exact Hx]. }
  exists (l0 ++ l1). unfold set_log. simpl. now rewrite app_assoc.
Qed.

Lemma idle_round_changes_nothing_witness :
  exists lines,
    send_messages_loop_body (at_second 5 onboarded)
    = (Ok tt, set_log (log (at_second 5 onboarded) ++ lines) (at_second 5 onboarded)).
Proof.
  assert (E : sent_messages (at_second 5 onboarded)
              = [SentMessage.mk 1 1 1 "Текст1" 6000000 true false;
                 SentMessage.mk 2 2 1 "Текст2" 8000000 true false;
                 SentMessage.mk 3 3 1 "Текст3" 12000000 true false])
    by (vm_compute; reflexivity).
  assert (T : utc (at_second 5 onboarded) = 5000000) by (vm_compute; reflexivity).
  apply (idle_round_changes_nothing (at_second 5 onboarded)).
  intros id x _ Hx (_ & _ & _ & Hle). rewrite E in Hx. rewrite T in Hle.
  destruct Hx as [<-|[<-|[<-|[]]]]; simpl in Hle; lia.
Defined.

(** ** Adding contacts and messages *)

Lemma new_user_key (user_data : UserSchema.t) (now : datetime) :
  User.user_id
    (fold_left setattr (UserSchema.dict_exclude_unset user_data)
               (User.mk 0 now "alive" now))
  = UserSchema.user_id user_data.
Proof.
  destruct user_data as [i c s t fs].
  unfold UserSchema.dict_exclude_unset, UserSchema.model_dump. simpl.
  destruct (existsb (UserSchema.field_eqb UserSchema.f_created_at) fs);
    destruct (existsb (UserSchema.field_eqb UserSchema.f_status) fs);
    destruct (existsb (UserSchema.field_eqb UserSchema.f_status_updated_at) fs);
    destruct c; destruct t; reflexivity.
Qed.

Lemma known_user_existsb (user_id : Z) (w : World) :
  (exists u, In u (users w) /\ User.user_id u = user_id) ->
  existsb (fun u => User.user_id u =? user_id) (users w) = true.
Proof.
  intros (u & Hin & Hid). apply existsb_exists. exists u.
  split; [exact Hin|]. now apply Z.eqb_eq.
Qed.

(** X9.  [add_user] and the primary key.  For a key that is already in
    [users] it stores nothing, logs the error and returns [None]; for a
    new key it appends one row with that key, returns it, and
    [get_by_user_id] then finds that row; with no optional field set in
    the schema, the row is alive and both its times are the time of the
    call. *)
Theorem add_user_then_lookup (w : World) (user_data : UserSchema.t) :
  let user_id := UserSchema.user_id user_data in
  let r := UserRepository.add_user user_data w in
  ((exists u, In u (users w) /\ User.user_id u = user_id) ->
   value_of r = Ok None
   /\ users (state_of r) = users w
   /\ sent_messages (state_of r) = sent_messages w
   /\ log (state_of r)
      = log w ++ [mk_log ERROR "An error occurred while adding a new user" []])
  /\
  (unknown_user user_id w ->
   exists u,
     value_of r = Ok (Some (UserSchema.from_orm u))
     /\ users (state_of r) = users w ++ [u]
     /\ sent_messages (state_of r) = sent_messages w
     /\ User.user_id u = user_id
     /\ UserRepository.get_by_user_id user_id (state_of r)
        = (Ok (Some (UserSchema.from_orm u)), state_of r)
     /\ (UserSchema.fields_set user_data = [] ->
         u = User.mk user_id (utc w) "alive" (utc w))).
Proof.
  intros user_id r. subst r.
  unfold UserRepository.add_user, try_except, bind, utcnow,
    UserRepository.insert_user. simpl.
  set (new_user := fold_left setattr _ _).
  assert (Hkey : User.user_id new_user = user_id) by apply new_user_key.
  rewrite Hkey. split.
  - intros Hknown. rewrite (known_user_existsb _ _ Hknown). simpl. auto.
  - intros Hnew. rewrite (unknown_user_existsb _ _ Hnew). simpl.
    exists new_user. repeat split; try assumption.
    + rewrite get_by_user_id_run. simpl.
      rewrite (find_first (fun u => User.user_id u =? user_id) (users w) []);
        [reflexivity| |now apply Z.eqb_eq].
      intros x Hx. apply Z.eqb_neq. now apply Hnew.
    + intros Hset. subst new_user. destruct user_data as [i c s t fs].
      simpl in Hset. subst fs. reflexivity.
Qed.

Lemma add_user_then_lookup_witness :
  (let r := UserRepository.add_user (UserSchema.mk 1 None "alive" None []) onboarded in
   value_of r = Ok None
   /\ users (state_of r) = users onboarded
   /\ sent_messages (state_of r) = sent_messages onboarded
   /\ log (state_of r)
      = log onboarded
          ++ [mk_log ERROR "An error occurred while adding a new user" []])
  /\
  (let r := UserRepository.add_user (UserSchema.mk 2 None "alive" None []) onboarded in
   exists u,
     value_of r = Ok (Some (UserSchema.from_orm u))
     /\ users (state_of r) = users onboarded ++ [u]
     /\ sent_messages (state_of r) = sent_messages onboarded
     /\ User.user_id u = 2
     /\ UserRepository.get_by_user_id 2 (state_of r)
        = (Ok (Some (UserSchema.from_orm u)), state_of r)
     /\ (UserSchema.fields_set (UserSchema.mk 2 None "alive" None []) = [] ->
         u = User.mk 2 (utc onboarded) "alive" (utc onboarded))).
Proof.
  assert (E : users onboarded = [User.mk 1 0 "alive" 0])
    by (vm_compute; reflexivity).
  split.
  - apply (proj1 (add_user_then_lookup
                    onboarded (UserSchema.mk 1 None "alive" None []))).
    exists (User.mk 1 0 "alive" 0). rewrite E. split; [now left|reflexivity].
  - apply (proj2 (add_user_then_lookup
                    onboarded (UserSchema.mk 2 None "alive" None []))).
    intros u Hu. rewrite E in Hu. destruct Hu as [<-|[]]. discriminate.
Defined.

(** X10.  [add_message] and the foreign key.  For a contact that is not in
    [users] it stores nothing, logs the error and returns [False]; for a
    contact that is, it appends the row as given, with the next value of
    the serial as its key, and returns [True]. *)
Theorem add_message_needs_contact (w : World)
    (message_data : SentMessage.transient) :
  let user_id := SentMessage.t_user_id message_data in
  let r := SentMessageRepository.add_message message_data w in
  (unknown_user user_id w ->
   value_of r = Ok false
   /\ users (state_of r) = users w
   /\ sent_messages (state_of r) = sent_messages w
   /\ log (state_of r)
      = log w ++ [mk_log ERROR "An error occurred while adding a new message" []])
  /\
  ((exists u, In u (users w) /\ User.user_id u = user_id) ->
   value_of r = Ok true
   /\ users (state_of r) = users w
   /\ sent_messages (state_of r)
      = sent_messages w
          ++ [SentMessage.mk (sent_messages_id_seq w)
                             (SentMessage.t_index message_data) user_id
                             (SentMessage.t_message_text message_data)
                             (SentMessage.t_sent_at message_data)
                             (SentMessage.t_is_available_sent message_data)
                             (SentMessage.t_is_sent message_data)]
   /\ sent_messages_id_seq (state_of r) = sent_messages_id_seq w + 1).
Proof.
  intros user_id r. subst r.
  unfold SentMessageRepository.add_message, try_except. split.
  - intros Hnew. fold user_id. rewrite (unknown_user_existsb _ _ Hnew).
    simpl. auto.
  - intros Hknown. fold user_id. rewrite (known_user_existsb _ _ Hknown).
    simpl. auto.
Qed.

Lemma add_message_needs_contact_witness :
  (let m := SentMessage.mk_transient 2 "Текст1" 1 6000000 true false in
   let r := SentMessageRepository.add_message m onboarded in
   value_of r = Ok false
   /\ users (state_of r) = users onboarded
   /\ sent_messages (state_of r) = sent_messages onboarded
   /\ log (state_of r)
      = log onboarded
          ++ [mk_log ERROR "An error occurred while adding a new message" []])
  /\
  (let m := SentMessage.mk_transient 1 "Текст4" 4 20000000 true false in
   let r := SentMessageRepository.add_message m onboarded in
   value_of r = Ok true
   /\ users (state_of r) = users onboarded
   /\ sent_messages (state_of r)
      = sent_messages onboarded
          ++ [SentMessage.mk (sent_messages_id_seq onboarded) 4 1 "Текст4"
                             20000000 true false]
   /\ sent_messages_id_seq (state_of r) = sent_messages_id_seq onboarded + 1).
Proof.
  assert (E : users onboarded = [User.mk 1 0 "alive" 0])
    by (vm_compute; reflexivity).
  split.
  - apply (proj1 (add_message_needs_contact
                    onboarded
                    (SentMessage.mk_transient 2 "Текст1" 1 6000000 true false))).
    intros u Hu. rewrite E in Hu. destruct Hu as [<-|[]]. discriminate.
  - apply (proj2 (add_message_needs_contact
                    onboarded
                    (SentMessage.mk_transient 1 "Текст4" 4 20000000 true false))).
    exists (User.mk 1 0 "alive" 0). rewrite E. split; [now left|reflexivity].
Defined.

(** X11.  Seeding a contact that is not in [users] stores nothing: each of the
    three INSERTs fails on the foreign key, [add_message] returns [False]
    for it, and [add_initial_messages_for_user] returns without an
    exception. *)
Theorem seeding_needs_contact (w : World) (user_id : Z) :
  unknown_user user_id w ->
  let r := add_initial_messages_for_user user_id w in
  value_of r = Ok tt
  /\ users (state_of r) = users w
  /\ sent_messages (state_of r) = sent_messages w
  /\ List.length (filter (fun l => match log_level l with ERROR => true | _ => false end)
                         (log (state_of r)))
     = (List.length (filter (fun l => match log_level l with ERROR => true | _ => false end)
                            (log w)) + 3)%nat.
Proof.
  intros Hnew. pose proof (unknown_user_existsb _ _ Hnew) as H.
  destruct w as [us ms k t it tr ob lg]. simpl in H.
  unfold add_initial_messages_for_user, try_except, bind, utcnow. simpl.
  unfold SentMessageRepository.add_message, try_except, bind. simpl.
  rewrite H. simpl. rewrite H. simpl. rewrite H. simpl.
  repeat split.
  rewrite <- !app_assoc. rewrite filter_app. simpl.
  rewrite length_app. reflexivity.
Qed.

Lemma seeding_needs_contact_witness :
  let r := add_initial_messages_for_user 5 start in
  value_of r = Ok tt
  /\ users (state_of r) = users start
  /\ sent_messages (state_of r) = sent_messages start
  /\ List.length (filter (fun l => match log_level l with ERROR => true | _ => false end)
                         (log (state_of r)))
     = (List.length (filter (fun l => match log_level l with ERROR => true | _ => false end)
                            (log start)) + 3)%nat.
Proof.
  apply (seeding_needs_contact start 5). intros u [].
Defined.

(** ** The schedule store: [mark_unavailable], [update_third_message_time] *)

(** X12.  [mark_unavailable].  With no row of that contact and index it changes
    nothing and returns [False].  Otherwise the first such row gets
    [is_available_sent = False], nothing else changes, and the result is
    [True]; if that row is the contact's only row of the index, no row of
    the contact with that index is due at any time afterwards. *)
Theorem mark_unavailable_skips_message (w : World) (user_id index : Z) :
  let same := fun x => SentMessage.user_id x = user_id
                       /\ SentMessage.index x = index in
  let r := SentMessageRepository.mark_unavailable user_id index w in
  ((forall x, In x (sent_messages w) -> ~ same x) -> r = (Ok false, w))
  /\
  (forall l1 m l2,
      sent_messages w = l1 ++ m :: l2 ->
      (forall x, In x l1 -> ~ same x) -> same m ->
      value_of r = Ok true
      /\ users (state_of r) = users w
      /\ sent_messages (state_of r)
         = l1 ++ SentMessage.mk (SentMessage.sent_messages_id m) index user_id
                                (SentMessage.message_text m)
                                (SentMessage.sent_at m) false
                                (SentMessage.is_sent m) :: l2
      /\ ((forall x, In x l2 -> ~ same x) ->
          forall x now, In x (sent_messages (state_of r)) -> same x ->
                        ~ is_due user_id now x)).
Proof.
  intros same r. subst r. rewrite mark_unavailable_run. split.
  - intros Hnone.
    assert (Hf : find (SentMessageRepository.by_user_and_index user_id index)
                      (sent_messages w) = None).
    { apply find_none_iff. intros x Hx. apply by_user_and_index_false.
      now apply Hnone. }
    now rewrite Hf.
  - intros l1 m l2 Hrows Hl1 [Hu Hi].
    assert (Hl1' : forall x, In x l1 ->
              SentMessageRepository.by_user_and_index user_id index x = false).
    { intros x Hx. apply by_user_and_index_false. now apply Hl1. }
    assert (Hm : SentMessageRepository.by_user_and_index user_id index m = true).
    { apply by_user_and_index_true. auto. }
    rewrite Hrows, (find_first _ l1 l2 m Hl1' Hm). simpl.
    rewrite (update_first_first _ _ l1 l2 m Hl1' Hm).
    unfold SentMessage.set_is_available_sent. rewrite Hu, Hi.
    repeat split.
    intros Hl2 x now Hx Hsame (_ & Hav & _).
    apply in_app_or in Hx. destruct Hx as [Hx|[<-|Hx]].
    + exact (Hl1 x Hx Hsame).
    + discriminate Hav.
    + exact (Hl2 x Hx Hsame).
Qed.

Lemma mark_unavailable_skips_message_witness :
  SentMessageRepository.mark_unavailable 1 4 onboarded = (Ok false, onboarded)
  /\ (let r := SentMessageRepository.mark_unavailable 1 2 onboarded in
      value_of r = Ok true
      /\ users (state_of r) = users onboarded
      /\ sent_messages (state_of r)
         = [SentMessage.mk 1 1 1 "Текст1" 6000000 true false]
             ++ SentMessage.mk 2 2 1 "Текст2" 8000000 false false
             :: [SentMessage.mk 3 3 1 "Текст3" 12000000 true false]
      /\ ((forall x, In x [SentMessage.mk 3 3 1 "Текст3" 12000000 true false] ->
                     ~ (SentMessage.user_id x = 1 /\ SentMessage.index x = 2)) ->
          forall x now, In x (sent_messages (state_of r)) ->
                        SentMessage.user_id x = 1 /\ SentMessage.index x = 2 ->
                        ~ is_due 1 now x)).
Proof.
  assert (E : sent_messages onboarded
              = [SentMessage.mk 1 1 1 "Текст1" 6000000 true false;
                 SentMessage.mk 2 2 1 "Текст2" 8000000 true false;
                 SentMessage.mk 3 3 1 "Текст3" 12000000 true false])
    by (vm_compute; reflexivity).
  split.
  - apply (proj1 (mark_unavailable_skips_message onboarded 1 4)).
    intros x Hx [_ Hi]. rewrite E in Hx.
    destruct Hx as [<-|[<-|[<-|[]]]]; discriminate Hi.
  - apply (proj2 (mark_unavailable_skips_message onboarded 1 2)
                 [SentMessage.mk 1 1 1 "Текст1" 6000000 true false]
                 (SentMessage.mk 2 2 1 "Текст2" 8000000 true false)
                 [SentMessage.mk 3 3 1 "Текст3" 12000000 true false]).
    + exact E.
    + intros x [<-|[]] [_ Hi]. discriminate Hi.
    + split; reflexivity.
Defined.

Lemma update_third_message_time_run (s : SentMessageSchema.t) (w : World) :
  SentMessageRepository.update_third_message_time s w
  = let third := SentMessageRepository.by_user_and_index
                   (SentMessageSchema.user_id s) 3 in
    match find third (sent_messages w) with
    | Some _ =>
        match SentMessageSchema.sent_at s with
        | Some sent_at =>
            (Ok true,
             set_log
               (log w ++ [mk_log DEBUG
                            "Updated sent_at for the third message for user_id"
                            [SentMessageSchema.user_id s]])
               (set_sent_messages
                  (update_first third (SentMessage.set_sent_at sent_at)
                                (sent_messages w)) w))
        | None =>
            (Ok false,
             set_log
               (log w ++ [mk_log ERROR
                            "An error occurred while updating the third message time"
                            []]) w)
        end
    | None => (Ok false, w)
    end.
Proof.
  unfold SentMessageRepository.update_third_message_time, try_except. simpl.
  destruct (find _ (sent_messages w)); [|reflexivity].
  destruct (SentMessageSchema.sent_at s); reflexivity.
Qed.

(** X13.  [update_third_message_time].  With no row of index 3 for the contact
    of the schema it changes nothing and returns [False].  Otherwise, for
    a schema that carries a time, the contact's first row of index 3 gets
    that time as its [sent_at], nothing else changes, and the result is
    [True]; for a schema whose [sent_at] is [None] the UPDATE fails on
    the column that is not nullable, no table changes, the error is
    logged and the result is [False]. *)
Theorem update_third_message_time_reschedules (w : World)
    (s : SentMessageSchema.t) :
  let user_id := SentMessageSchema.user_id s in
  let third := fun x => SentMessage.user_id x = user_id
                        /\ SentMessage.index x = 3 in
  let r := SentMessageRepository.update_third_message_time s w in
  ((forall x, In x (sent_messages w) -> ~ third x) -> r = (Ok false, w))
  /\
  (forall l1 m l2,
      sent_messages w = l1 ++ m :: l2 ->
      (forall x, In x l1 -> ~ third x) -> third m ->
      users (state_of r) = users w
      /\ match SentMessageSchema.sent_at s with
         | Some sent_at =>
             value_of r = Ok true
             /\ sent_messages (state_of r)
                = l1 ++ SentMessage.mk (SentMessage.sent_messages_id m) 3 user_id
                                       (SentMessage.message_text m) sent_at
                                       (SentMessage.is_available_sent m)
                                       (SentMessage.is_sent m) :: l2
         | None =>
             value_of r = Ok false
             /\ sent_messages (state_of r) = sent_messages w
             /\ log (state_of r)
                = log w ++ [mk_log ERROR
                              "An error occurred while updating the third message time"
                              []]
         end).
Proof.
  intros user_id third r. subst r. rewrite update_third_message_time_run.
  fold user_id. simpl. split.
  - intros Hnone.
    assert (Hf : find (SentMessageRepository.by_user_and_index user_id 3)
                      (sent_messages w) = None).
    { apply find_none_iff. intros x Hx. apply by_user_and_index_false.
      now apply Hnone. }
    now rewrite Hf.
  - intros l1 m l2 Hrows Hl1 [Hu Hi].
    assert (Hl1' : forall x, In x l1 ->
              SentMessageRepository.by_user_and_index user_id 3 x = false).
    { intros x Hx. apply by_user_and_index_false. now apply Hl1. }
    assert (Hm : SentMessageRepository.by_user_and_index user_id 3 m = true).
    { apply by_user_and_index_true. auto. }
    rewrite Hrows, (find_first _ l1 l2 m Hl1' Hm).
    destruct (SentMessageSchema.sent_at s) as [sent_at|]; simpl.
    + rewrite (update_first_first _ _ l1 l2 m Hl1' Hm).
      unfold SentMessage.set_sent_at. rewrite Hu, Hi. auto.
    + rewrite Hrows. auto.
Qed.

Lemma update_third_message_time_reschedules_witness :
  SentMessageRepository.update_third_message_time
    (SentMessageSchema.mk 0 3 2 None (Some 19000000) None None) onboarded
  = (Ok false, onboarded)
  /\ (let s := SentMessageSchema.mk 0 3 1 None (Some 19000000) None None in
      let r := SentMessageRepository.update_third_message_time s onboarded in
      users (state_of r) = users onboarded
      /\ match SentMessageSchema.sent_at s with
         | Some sent_at =>
             value_of r = Ok true
             /\ sent_messages (state_of r)
                = [SentMessage.mk 1 1 1 "Текст1" 6000000 true false;
                   SentMessage.mk 2 2 1 "Текст2" 8000000 true false]
                    ++ SentMessage.mk 3 3 1 "Текст3" sent_at true false :: []
         | None =>
             value_of r = Ok false
             /\ sent_messages (state_of r) = sent_messages onboarded
             /\ log (state_of r)
                = log onboarded
                    ++ [mk_log ERROR
                          "An error occurred while updating the third message time"
                          []]
         end).
Proof.
  assert (E : sent_messages onboarded
              = [SentMessage.mk 1 1 1 "Текст1" 6000000 true false;
                 SentMessage.mk 2 2 1 "Текст2" 8000000 true false;
                 SentMessage.mk 3 3 1 "Текст3" 12000000 true false])
    by (vm_compute; reflexivity).
  split.
  - apply (proj1 (update_third_message_time_reschedules
                    onboarded
                    (SentMessageSchema.mk 0 3 2 None (Some 19000000) None None))).
    intros x Hx [Hu _]. rewrite E in Hx.
    destruct Hx as [<-|[<-|[<-|[]]]]; discriminate Hu.
  - apply (proj2 (update_third_message_time_reschedules
                    onboarded
                    (SentMessageSchema.mk 0 3 1 None (Some 19000000) None None))
                 [SentMessage.mk 1 1 1 "Текст1" 6000000 true false;
                  SentMessage.mk 2 2 1 "Текст2" 8000000 true false]
                 (SentMessage.mk 3 3 1 "Текст3" 12000000 true false) []).
    + exact E.
    + intros x [<-|[<-|[]]] [_ Hi]; discriminate Hi.
    + split; reflexivity.
Defined.

(** ** The trigger matcher *)

Lemma prefix_spec (s1 s2 : string) :
  String.prefix s1 s2 = true <-> exists rest, s2 = String.append s1 rest.
Proof.
  revert s2. induction s1 as [|a s1 IH]; intros s2.
  - split; [intros _; now exists s2|intros _; now destruct s2].
  - destruct s2 as [|b s2]; simpl.
    + split; [discriminate|]. intros (rest & H). discriminate H.
    + destruct (Ascii.ascii_dec a b) as [->|Hne].
      * rewrite IH. split; intros (rest & H); exists rest.
        -- now rewrite H.
        -- now injection H.
      * split; [discriminate|]. intros (rest & H). injection H as H _.
        now destruct Hne.
Qed.

(** [needle in haystack]: the needle occurs in the haystack. *)
Lemma str_in_spec (needle haystack : string) :
  str_in needle haystack = true
  <-> exists before after,
        haystack = String.append before (String.append needle after).
Proof.
  induction haystack as [|c rest IH]; cbn [str_in].
  - destruct (String.prefix needle "") eqn:Hp.
    + split; [intros _|reflexivity]. apply prefix_spec in Hp.
      destruct Hp as (after & H). now exists "", after.
    + split; [discriminate|]. intros (before & after & H).
      destruct before; [|discriminate H]. simpl in H.
      assert (Hp' : String.prefix needle "" = true).
      { apply prefix_spec. now exists after. }
      congruence.
  - destruct (String.prefix needle (String c rest)) eqn:Hp.
    + split; [intros _|reflexivity]. apply prefix_spec in Hp.
      destruct Hp as (after & H). now exists "", after.
    + rewrite IH. split.
      * intros (before & after & H). exists (String c before), after.
        simpl. now rewrite H.
      * intros (before & after & H). destruct before as [|b before].
        -- simpl in H.
           assert (Hp' : String.prefix needle (String c rest) = true).
           { apply prefix_spec. now exists after. }
           congruence.
        -- simpl in H. injection H as _ H. now exists before, after.
Qed.

Lemma has_trigger_word_spec (text : string) :
  existsb (fun trigger_word => str_in trigger_word text) config.TRIGGER_WORDS
  = true
  <-> has_trigger_word text.
Proof.
  rewrite existsb_exists. unfold has_trigger_word. split.
  - intros (word & Hin & Hs). apply str_in_spec in Hs.
    destruct Hs as (before & after & H). now exists word, before, after.
  - intros (word & before & after & Hin & H). exists word.
    split; [exact Hin|]. apply str_in_spec. now exists before, after.
Qed.

(** X14.  [handle_trigger_for_user] acts exactly on the texts in which a word
    of [TRIGGER_WORDS] occurs as a substring.  On such a text it returns
    without an exception and leaves the table of users as it was; when
    the contact has a row of index 2, the first such row is left with
    [is_available_sent = False], its other columns and every other row as
    they were; when it has none, the table of messages is as it was.  On
    any other text it does nothing at all. *)
Theorem handle_trigger_matches_substring (w : World) (user_id : Z)
    (text : string) :
  let r := handle_trigger_for_user user_id text w in
  (has_trigger_word text ->
   value_of r = Ok tt
   /\ users (state_of r) = users w
   /\ ((forall x, In x (sent_messages w) ->
                  ~ (SentMessage.user_id x = user_id
                     /\ SentMessage.index x = 2)) ->
       sent_messages (state_of r) = sent_messages w)
   /\ (forall l1 m l2,
         sent_messages w = l1 ++ m :: l2 ->
         (forall x, In x l1 ->
                    ~ (SentMessage.user_id x = user_id
                       /\ SentMessage.index x = 2)) ->
         SentMessage.user_id m = user_id -> SentMessage.index m = 2 ->
         sent_messages (state_of r)
         = l1 ++ SentMessage.mk (SentMessage.sent_messages_id m) 2 user_id
                                (SentMessage.message_text m)
                                (SentMessage.sent_at m) false
                                (SentMessage.is_sent m) :: l2))
  /\ (~ has_trigger_word text -> r = (Ok tt, w)).
Proof.
  intros r. subst r. split.
  - intros H. apply has_trigger_word_spec in H.
    rewrite (handle_trigger_for_user_run _ _ _ H). simpl.
    rewrite mark_unavailable_run.
    split; [reflexivity|]. split; [|split].
    + destruct (find _ (sent_messages w)); reflexivity.
    + intros Hnone.
      assert (Hf : find (SentMessageRepository.by_user_and_index user_id 2)
                        (sent_messages w) = None).
      { apply find_none_iff. intros x Hx.
        apply by_user_and_index_false. now apply Hnone. }
      now rewrite Hf.
    + intros l1 m l2 Hrows Hl1 Hu Hi.
      assert (Hl1' : forall x, In x l1 ->
                SentMessageRepository.by_user_and_index user_id 2 x = false).
      { intros x Hx. apply by_user_and_index_false. auto. }
      assert (Hm : SentMessageRepository.by_user_and_index user_id 2 m = true).
      { apply by_user_and_index_true. auto. }
      rewrite Hrows, (find_first _ l1 l2 m Hl1' Hm). simpl.
      rewrite (update_first_first _ _ l1 l2 m Hl1' Hm).
      unfold SentMessage.set_is_available_sent. now rewrite Hu, Hi.
  - intros H. unfold handle_trigger_for_user.
    destruct (existsb _ config.TRIGGER_WORDS) eqn:He; [|reflexivity].
    apply has_trigger_word_spec in He. contradiction.
Qed.

Lemma handle_trigger_matches_substring_witness :
  (let r := handle_trigger_for_user 1 "это прекрасно!" onboarded in
   value_of r = Ok tt
   /\ users (state_of r) = users onboarded
   /\ sent_messages (state_of r)
      = [SentMessage.mk 1 1 1 "Текст1" 6000000 true false]
          ++ SentMessage.mk 2 2 1 "Текст2" 8000000 false false
          :: [SentMessage.mk 3 3 1 "Текст3" 12000000 true false])
  /\ handle_trigger_for_user 1 "Прекрасно" onboarded = (Ok tt, onboarded).
Proof.
  assert (Hword : has_trigger_word "это прекрасно!").
  { exists "прекрасно", "это ", "!". split; [now left|reflexivity]. }
  split.
  - destruct (proj1 (handle_trigger_matches_substring onboarded 1
                       "это прекрасно!") Hword) as (Hv & Hu & _ & Hrow).
    split; [exact Hv|]. split; [exact Hu|].
    apply (Hrow [SentMessage.mk 1 1 1 "Текст1" 6000000 true false]
                (SentMessage.mk 2 2 1 "Текст2" 8000000 true false)
                [SentMessage.mk 3 3 1 "Текст3" 12000000 true false]).
    + reflexivity.
    + intros x [<-|[]] [_ Hi]. discriminate Hi.
    + reflexivity.
    + reflexivity.
  - apply (proj2 (handle_trigger_matches_substring onboarded 1 "Прекрасно")).
    intros H. apply has_trigger_word_spec in H. vm_compute in H. discriminate H.
Defined.

(** ** What the handler does with a message, by its direction *)

Lemma not_alive_lookup (user_id : Z) (w : World) (u : User.t) :
  not_alive user_id w ->
  find (fun u => User.user_id u =? user_id) (users w) = Some u ->
  String.eqb (User.status u) Status.alive = false.
Proof.
  intros Hna Hf. apply find_some in Hf. destruct Hf as [Hin Hid].
  apply Z.eqb_eq in Hid. apply String.eqb_neq. exact (Hna u Hin Hid).
Qed.

(** X15.  The text of a message matters only when the message is outgoing and
    is in the chat of a contact that is alive.  An outgoing message in
    the chat of a contact that is unknown, dead or finished, and an
    incoming message of a contact that is known, only write lines to the
    log, whatever the text: no table changes. *)
Theorem handler_ignores_other_texts (w : World) (message : Message) :
  let r := message_handler message w in
  (outgoing message = true -> not_alive (chat_id message) w ->
   exists lines, r = (Ok tt, set_log (log w ++ lines) w))
  /\
  (outgoing message = false ->
   (exists u, In u (users w) /\ User.user_id u = from_user_id message) ->
   exists lines, r = (Ok tt, set_log (log w ++ lines) w)).
Proof.
  intros r. subst r. split.
  - intros Hout Hna. unfold message_handler, bind. simpl. rewrite Hout. simpl.
    rewrite get_by_user_id_run. simpl.
    destruct (find _ (users w)) as [u|] eqn:Hf; simpl.
    + rewrite (not_alive_lookup _ _ u Hna Hf). simpl.
      eexists. unfold set_log. simpl. rewrite <- app_assoc. reflexivity.
    + eexists. unfold set_log. simpl. rewrite <- app_assoc. reflexivity.
  - intros Hout Hknown. unfold message_handler, bind. simpl. rewrite Hout. simpl.
    destruct (find (fun u => User.user_id u =? from_user_id message) (users w))
      as [u|] eqn:Hf.
    + rewrite (get_or_add_user_in_db_known _ _ u) by exact Hf. simpl.
      eexists. reflexivity.
    + exfalso. destruct Hknown as (u & Hin & Hid).
      pose proof (proj1 (find_none_iff _ _) Hf u Hin) as Hne. simpl in Hne.
      apply Z.eqb_neq in Hne. contradiction.
Qed.

Lemma handler_ignores_other_texts_witness :
  (exists lines,
     message_handler (outgoing_to 1 "это прекрасно!") dead_contact
     = (Ok tt, set_log (log dead_contact ++ lines) dead_contact))
  /\ (exists lines,
        message_handler (incoming 1 "это прекрасно!") onboarded
        = (Ok tt, set_log (log onboarded ++ lines) onboarded)).
Proof.
  assert (E : users dead_contact = [User.mk 1 0 "dead" 6000000])
    by (vm_compute; reflexivity).
  assert (E' : users onboarded = [User.mk 1 0 "alive" 0])
    by (vm_compute; reflexivity).
  split.
  - apply (proj1 (handler_ignores_other_texts
                    dead_contact (outgoing_to 1 "это прекрасно!")));
      [reflexivity|].
    intros u Hin _. rewrite E in Hin. destruct Hin as [<-|[]]. discriminate.
  - apply (proj2 (handler_ignores_other_texts
                    onboarded (incoming 1 "это прекрасно!")));
      [reflexivity|].
    exists (User.mk 1 0 "alive" 0). rewrite E'. split; [now left|reflexivity].
Defined.

(** ** Consistent stores *)

Lemma Forall2_In_r {A} (R : A -> A -> Prop) (l l' : list A) (y : A) :
  Forall2 R l l' -> In y l' -> exists x, In x l /\ R x y.
Proof.
  intros H. induction H as [|a b l l' Hab _ IH]; intros Hy; [destruct Hy|].
  destruct Hy as [<-|Hy].
  - exists a. split; [now left|exact Hab].
  - destruct (IH Hy) as (x & Hx & Hr). exists x. split; [now right|exact Hr].
Qed.












(** ** What a round delivers *)











(** ** Looking a contact up after an update *)

Lemma get_all_run (w : World) :
  UserRepository.get_all w = (Ok (map UserSchema.from_orm (users w)), w).
Proof. reflexivity. Qed.

(** X19.  After [update_user] on a contact that is in [users] (once: its key is
    the primary key), the three queries agree with it: [get_by_user_id]
    returns the schema that [update_user] returned, which carries the
    status of the payload; [get_all] lists it, among as many rows as
    before; and [get_all_alive] lists the contact exactly when the status
    written is alive. *)
Theorem update_user_then_lookup (w : World) (update_data : UserSchema.t)
    (l1 l2 : list User.t) (u : User.t) :
  let user_id := UserSchema.user_id update_data in
  users w = l1 ++ u :: l2 ->
  (forall x, In x l1 -> User.user_id x <> user_id) ->
  (forall x, In x l2 -> User.user_id x <> user_id) ->
  User.user_id u = user_id ->
  let r := UserRepository.update_user update_data w in
  exists s,
    value_of r = Ok (Some s)
    /\ UserSchema.user_id s = user_id
    /\ UserSchema.status s = UserSchema.status update_data
    /\ UserRepository.get_by_user_id user_id (state_of r)
       = (Ok (Some s), state_of r)
    /\ (forall all, value_of (UserRepository.get_all (state_of r)) = Ok all ->
                    In s all /\ List.length all = List.length (users w))
    /\ (forall alive,
          value_of (UserRepository.get_all_alive (state_of r)) = Ok alive ->
          (In user_id (map UserSchema.user_id alive)
           <-> UserSchema.status update_data = Status.alive)).
Proof.
  intros user_id Hrows Hl1 Hl2 Hu r. subst r. rewrite update_user_run.
  fold user_id. simpl.
  assert (Hl1' : forall x, In x l1 -> (User.user_id x =? user_id) = false).
  { intros x Hx. apply Z.eqb_neq. now apply Hl1. }
  assert (Hu' : (User.user_id u =? user_id) = true) by now apply Z.eqb_eq.
  rewrite Hrows.
  rewrite (find_first (fun x => User.user_id x =? user_id) l1 l2 u Hl1' Hu').
  rewrite (update_first_first (fun x => User.user_id x =? user_id) _
                              l1 l2 u Hl1' Hu').
  destruct (flush_update (utc w) u user_id (UserSchema.status update_data) Hu)
    as (H1 & _ & H3 & _ & _).
  set (stored := UserRepository.flush _ _ _) in *.
  exists (UserSchema.from_orm stored). simpl.
  split; [reflexivity|]. split; [exact H1|]. split; [exact H3|]. split; [|split].
  - rewrite get_by_user_id_run. simpl.
    rewrite (find_first (fun x => User.user_id x =? user_id) l1 l2 stored Hl1');
      [reflexivity|]. now apply Z.eqb_eq.
  - intros all [= <-]. split.
    + apply in_map. apply in_or_app. right. now left.
    + rewrite length_map, !length_app. reflexivity.
  - intros alive [= <-]. rewrite map_map. simpl.
    change (map (fun x => User.user_id x)
                (filter (fun u0 => String.eqb (User.status u0) "alive")
                        (l1 ++ stored :: l2)))
      with (alive_ids (set_users (l1 ++ stored :: l2) w)).
    rewrite alive_ids_spec. simpl. split.
    + intros (x & Hx & Hid & Hs). apply in_app_or in Hx.
      destruct Hx as [Hx|[<-|Hx]].
      * destruct (Hl1 x Hx Hid).
      * congruence.
      * destruct (Hl2 x Hx Hid).
    + intros Hs. exists stored. split; [apply in_or_app; right; now left|].
      split; [exact H1|congruence].
Qed.

Lemma update_user_then_lookup_witness :
  let r := UserRepository.update_user
             (UserSchema.mk 1 None "finished" None [UserSchema.f_status])
             (at_second 12 onboarded) in
  exists s,
    value_of r = Ok (Some s)
    /\ UserSchema.user_id s = 1
    /\ UserSchema.status s = "finished"
    /\ UserRepository.get_by_user_id 1 (state_of r) = (Ok (Some s), state_of r)
    /\ (forall all, value_of (UserRepository.get_all (state_of r)) = Ok all ->
                    In s all
                    /\ List.length all
                       = List.length (users (at_second 12 onboarded)))
    /\ (forall alive,
          value_of (UserRepository.get_all_alive (state_of r)) = Ok alive ->
          (In 1 (map UserSchema.user_id alive) <-> "finished" = Status.alive)).
Proof.
  apply (update_user_then_lookup
           (at_second 12 onboarded)
           (UserSchema.mk 1 None "finished" None [UserSchema.f_status])
           [] [] (User.mk 1 0 "alive" 0)).
  - vm_compute. reflexivity.
  - intros x [].
  - intros x [].
  - reflexivity.
Defined.

(** ** The order in which a contact gets its messages *)

(** What [fetch_pending] returns is a row of the table that is due, and
    no due row of the contact is for an earlier time. *)
Lemma fetch_pending_some (user_id : Z) (w : World) (s : SentMessageSchema.t) :
  value_of (SentMessageRepository.fetch_pending user_id w) = Ok (Some s) ->
  exists m,
    s = SentMessageSchema.from_orm m
    /\ In m (sent_messages w)
    /\ is_due user_id (utc w) m
    /\ forall x, In x (sent_messages w) -> is_due user_id (utc w) x ->
                 SentMessage.sent_at m <= SentMessage.sent_at x.
Proof.
  rewrite fetch_pending_run. simpl.
  set (p := SentMessageRepository.pending user_id (utc w)).
  pose proof (order_by_head SentMessage.sent_at (filter p (sent_messages w)))
    as Hhead.
  destruct (order_by SentMessage.sent_at (filter p (sent_messages w)))
    as [|m rest]; simpl; [discriminate|].
  intros [= <-]. destruct Hhead as (f1 & f2 & Hsplit & Hmin & _).
  assert (Hin : In m (filter p (sent_messages w))).
  { rewrite Hsplit. apply in_or_app. right. now left. }
  apply filter_In in Hin. destruct Hin as [Hin Hp].
  exists m. split; [reflexivity|]. split; [exact Hin|].
  split; [now apply pending_true|].
  intros x Hx Hdue. apply Hmin. apply filter_In. split; [exact Hx|].
  now apply pending_true.
Qed.


(** X20.  A contact gets its messages in the order of their indexes.  The
    times that seeding gives a new contact follow the indexes (the delays
    of [MESSAGES] increase with the index); a round of the dispatch loop
    keeps that; and where the times of a contact's rows follow their
    indexes, [fetch_pending] never skips ahead: when it returns a row of
    the contact, every row of the contact with a smaller index is already
    sent or unavailable.  Only the order of the times is used, not the
    order in which the rows are stored or scanned. *)
Theorem fetch_pending_follows_index (w : World) (user_id : Z) :
  (unknown_user user_id w -> foreign_key_holds w ->
   times_follow_index user_id
     (sent_messages (state_of (get_or_add_user_in_db user_id w))))
  /\ (times_follow_index user_id (sent_messages w) ->
      times_follow_index user_id
        (sent_messages (state_of (send_messages_loop_body w))))
  /\ (times_follow_index user_id (sent_messages w) ->
      forall s,
        value_of (SentMessageRepository.fetch_pending user_id w) = Ok (Some s) ->
        forall x, In x (sent_messages w) ->
                  SentMessage.user_id x = user_id ->
                  SentMessage.index x < SentMessageSchema.index s ->
                  SentMessage.is_sent x = true
                  \/ SentMessage.is_available_sent x = false).
Proof.
  split; [|split].
  - intros Hnew Hfk.
    destruct (get_or_add_user_in_db_new user_id w Hnew) as (_ & _ & Hm & _).
    rewrite Hm.
    pose proof (unknown_user_has_no_message user_id w Hnew Hfk) as Hnone.
    assert (Hold : forall a, In a (sent_messages w) ->
                             SentMessage.user_id a <> user_id).
    { intros a Ha Hu.
      assert (Hin : In a (filter (fun m => SentMessage.user_id m =? user_id)
                                 (sent_messages w))).
      { apply filter_In. split; [exact Ha|now apply Z.eqb_eq]. }
      rewrite Hnone in Hin. exact Hin. }
    intros a b Ha Hb Hua Hub Hlt.
    apply in_app_or in Ha. destruct Ha as [Ha|Ha]; [now destruct (Hold a Ha)|].
    apply in_app_or in Hb. destruct Hb as [Hb|Hb]; [now destruct (Hold b Hb)|].
    unfold seeded, timedelta_seconds in Ha, Hb.
    destruct Ha as [<-|[<-|[<-|[]]]]; destruct Hb as [<-|[<-|[<-|[]]]];
      simpl in Hlt |- *; lia.
  - intros Ht.
    destruct (send_messages_loop_body_run w) as (_ & (_ & Hm & _) & _).
    assert (Hsame : forall P x y, message_step P x y ->
              SentMessage.user_id y = SentMessage.user_id x
              /\ SentMessage.index y = SentMessage.index x
              /\ SentMessage.sent_at y = SentMessage.sent_at x).
    { intros P x y [->|(_ & ->)]; repeat split; reflexivity. }
    intros a' b' Ha' Hb' Hua Hub Hlt.
    destruct (Forall2_In_r _ _ _ _ Hm Ha') as (a & Ha & Hra).
    destruct (Forall2_In_r _ _ _ _ Hm Hb') as (b & Hb & Hrb).
    destruct (Hsame _ _ _ Hra) as (Eua & Eia & Eta).
    destruct (Hsame _ _ _ Hrb) as (Eub & Eib & Etb).
    rewrite Eta, Etb. apply Ht; try assumption; congruence.
  - intros Ht s Hfetch x Hx Hu Hlt.
    destruct (fetch_pending_some _ _ _ Hfetch) as (m & -> & Hm & Hdue & Hmin).
    simpl in Hlt. destruct Hdue as (Hum & Hav & Hsent & Hnow).
    pose proof (Ht x m Hx Hm Hu Hum Hlt) as Hbefore.
    destruct (SentMessage.is_sent x) eqn:Esent; [now left|].
    destruct (SentMessage.is_available_sent x) eqn:Eav; [|now right].
    exfalso.
    assert (Hxdue : is_due user_id (utc w) x).
    { repeat split; try assumption. lia. }
    specialize (Hmin x Hx Hxdue). lia.
Qed.

Lemma fetch_pending_follows_index_witness :
  times_follow_index 1
    (sent_messages (state_of (get_or_add_user_in_db 1 start)))
  /\ (forall x, In x (sent_messages (at_second 9 first_sent)) ->
                 SentMessage.user_id x = 1 ->
                 SentMessage.index x < 2 ->
                 SentMessage.is_sent x = true
                 \/ SentMessage.is_available_sent x = false).
Proof.
  split.
  - apply (proj1 (fetch_pending_follows_index start 1)).
    + intros u [].
    + intros m [].
  - assert (Hrows : sent_messages (at_second 9 first_sent)
                    = [SentMessage.mk 1 1 1 "Текст1" 6000000 true true;
                       SentMessage.mk 2 2 1 "Текст2" 8000000 true false;
                       SentMessage.mk 3 3 1 "Текст3" 12000000 true false])
      by (vm_compute; reflexivity).
    apply (proj2 (proj2 (fetch_pending_follows_index
                           (at_second 9 first_sent) 1)))
      with (s := SentMessageSchema.from_orm
                   (SentMessage.mk 2 2 1 "Текст2" 8000000 true false)).
    + intros a b Ha Hb _ _ Hlt. rewrite Hrows in Ha, Hb.
      destruct Ha as [<-|[<-|[<-|[]]]]; destruct Hb as [<-|[<-|[<-|[]]]];
        simpl in Hlt |- *; lia.
    + vm_compute. reflexivity.
Defined.

(** ** A round only marks due rows sent *)










